(** * go-couchdb: the request layer, its option and error encoding, and
      design-document synchronisation

    A shallow embedding of [http.go] and [couchdb.go].  Go strings are byte
    strings and are embedded as [string]; Go [int] values as [Z]; a Go result
    pair [(T, error)] as a pair of options, [None] standing for [nil].
    Functions of the Go standard library that the package calls are either
    written out (net/url's QueryEscape, strconv's integer and boolean
    formatting) or taken from a [Runtime] (encoding/json, float
    formatting); the HTTP client is a field of the transport. *)

From Stdlib Require Import ZArith Ascii String List Bool Lia.
From stdpp Require Import base option list strings pretty gmap fin_maps.

Local Open Scope Z_scope.

(** ** Outcomes: a Go call either returns or panics *)

Inductive outcome (A : Type) : Type :=
| Returns (a : A)
| Panics (msg : string).
Arguments Returns {A} a.
Arguments Panics {A} msg.

Definition obind {A B} (o : outcome A) (k : A -> outcome B) : outcome B :=
  match o with
  | Returns a => k a
  | Panics m => Panics m
  end.

Definition panics {A} (o : outcome A) : bool :=
  match o with Panics _ => true | Returns _ => false end.

#[global] Instance outcome_ret : MRet outcome := fun A a => Returns a.
#[global] Instance outcome_bind : MBind outcome := fun A B k o => obind o k.

(** ** Errors *)

(** [Error] of http.go: an API-level error reported by CouchDB. *)
Record Error : Type := mkError {
  Method : string;
  URL : string;
  StatusCode : Z;
  ErrorCode : string;
  Reason : string
}.

(** A non-nil value of Go's [error] interface.  The package tells [*Error]
    from every other dynamic type by a type assertion and otherwise only
    prints errors, so an error of another type is kept as its text.  An
    error of dynamic type [*Error] holds a pointer: to an [Error], as all
    those that parseError builds do, or the nil pointer, which a caller can
    put into an error. *)
Inductive error : Type :=
| serverError (e : Error)
| nilError
| foreignError (msg : string).

(** The [Error] method of [*Error]; [%v] of an int prints it in base 10. *)
Definition Error_Error (e : Error) : string :=
  if String.eqb (ErrorCode e) "" then
    Method e +:+ " " +:+ URL e +:+ ": " +:+ pretty (StatusCode e)
  else
    Method e +:+ " " +:+ URL e +:+ ": (" +:+ pretty (StatusCode e) +:+ ") "
      +:+ ErrorCode e +:+ ": " +:+ Reason e.

(** An error value as [%v] prints it: the result of its [Error()] method,
    and [<nil>] for a nil pointer, on which fmt recovers from the method's
    panic. *)
Definition error_text (err : error) : string :=
  match err with
  | serverError e => Error_Error e
  | nilError => "<nil>"
  | foreignError msg => msg
  end.

(** net/http status constants. *)
Definition StatusUnauthorized : Z := 401.
Definition StatusNotFound : Z := 404.
Definition StatusConflict : Z := 409.

(** The type assertion of [err] to [*Error] in its comma-ok form: it never
    panics, also on nil.  The pointer it yields is nil when the assertion
    fails, and also when it succeeds on a nil pointer. *)
Definition assert_Error (err : option error) : option Error * bool :=
  match err with
  | Some (serverError e) => (Some e, true)
  | Some nilError => (None, true)
  | _ => (None, false)
  end.

(** [ok && dberr.StatusCode == statusCode]: the field is read only when
    the assertion succeeded, and reading it through a nil pointer panics. *)
Definition ErrorStatus (err : option error) (statusCode : Z) : outcome bool :=
  let '(dberr, ok) := assert_Error err in
  if ok then
    match dberr with
    | Some e => Returns (StatusCode e =? statusCode)
    | None => Panics "invalid memory address or nil pointer dereference"
    end
  else Returns false.

Definition NotFound (err : option error) : outcome bool :=
  ErrorStatus err StatusNotFound.
Definition Unauthorized (err : option error) : outcome bool :=
  ErrorStatus err StatusUnauthorized.
Definition Conflict (err : option error) : outcome bool :=
  ErrorStatus err StatusConflict.

(** ** net/url.QueryEscape *)

Definition between (lo hi c : ascii) : bool :=
  (N.leb (N_of_ascii lo) (N_of_ascii c)) && (N.leb (N_of_ascii c) (N_of_ascii hi)).

Definition is_alnum (c : ascii) : bool :=
  between "a" "z" c || between "A" "Z" c || between "0" "9" c.

(** [shouldEscape c encodeQueryComponent]: only the unreserved characters
    of RFC 3986 are left alone. *)
Definition shouldEscape (c : ascii) : bool :=
  negb (is_alnum c
        || Ascii.eqb c "-" || Ascii.eqb c "_" || Ascii.eqb c "." || Ascii.eqb c "~").

Definition upperhex (n : N) : ascii :=
  match String.get (N.to_nat n) "0123456789ABCDEF" with
  | Some c => c
  | None => "0"%char
  end.

Definition escape_byte (c : ascii) : string :=
  if Ascii.eqb c " " then "+"
  else if shouldEscape c then
    String "%" (String (upperhex (N.shiftr (N_of_ascii c) 4))
               (String (upperhex (N.land (N_of_ascii c) 15)) ""))
  else String c "".

Fixpoint QueryEscape (s : string) : string :=
  match s with
  | EmptyString => ""
  | String c s' => escape_byte c +:+ QueryEscape s'
  end.

Fixpoint string_forall (P : ascii -> bool) (s : string) : bool :=
  match s with
  | EmptyString => true
  | String c s' => P c && string_forall P s'
  end.

(** The bytes an escaped text is made of: unreserved characters, [%] and
    [+].  None of them ends a query value, as [&], [=], [#] and [?] would. *)
Definition query_value_char (c : ascii) : bool :=
  negb (shouldEscape c) || Ascii.eqb c "%" || Ascii.eqb c "+".

(** ** Paths *)

Fixpoint path_from (r : string) (segs : list string) : string :=
  match segs with
  | [] => r
  | seg :: segs' => path_from ((r +:+ "/") +:+ QueryEscape seg) segs'
  end.

Definition path (segs : list string) : string := path_from "" segs.

Definition revpath (rev : string) (segs : list string) : string :=
  let r := path segs in
  if negb (String.eqb rev "") then r +:+ "?rev=" +:+ QueryEscape rev else r.


(** ** Dynamic values: what an [interface{}] holds *)

(** The kinds of package reflect. *)
Module reflect.
Inductive Kind : Type :=
| Invalid | Bool
| Int | Int8 | Int16 | Int32 | Int64
| Uint | Uint8 | Uint16 | Uint32 | Uint64 | Uintptr
| Float32 | Float64 | Complex64 | Complex128
| Array | Chan | Func | Interface | Map | Pointer | Slice | String | Struct
| UnsafePointer.
End reflect.

Inductive width : Type := W | W8 | W16 | W32 | W64.

(** The kinds whose values the package never looks into. *)
Inductive opaque_kind : Type :=
| OComplex64 | OComplex128 | OArray | OChan | OFunc | OMap | OPointer | OStruct
| OUnsafePointer.

(** A float64 is kept as its IEEE 754 bit pattern. *)
Definition float64 : Type := Z.

(** The value of an [interface{}]: nil, or a typed value.  A signed or
    unsigned integer carries its width; a slice its type name and elements;
    a value of an opaque kind its type name and contents, which only
    encoding/json reads. *)
#[warnings="-register-all"]
Inductive value : Type :=
| VNil
| VBool (b : bool)
| VInt (w : width) (i : Z)
| VUint (w : width) (u : Z)
| VUintptr (u : Z)
| VFloat32 (f : float64)
| VFloat64 (f : float64)
| VString (s : string)
| VSlice (ty : string) (elems : list value)
| VOpaque (k : opaque_kind) (ty : string) (contents : string).

(** [reflect.ValueOf(v).Kind()]; the zero Value of a nil interface is Invalid. *)
Definition Value_Kind (v : value) : reflect.Kind :=
  match v with
  | VNil => reflect.Invalid
  | VBool _ => reflect.Bool
  | VInt W _ => reflect.Int
  | VInt W8 _ => reflect.Int8
  | VInt W16 _ => reflect.Int16
  | VInt W32 _ => reflect.Int32
  | VInt W64 _ => reflect.Int64
  | VUint W _ => reflect.Uint
  | VUint W8 _ => reflect.Uint8
  | VUint W16 _ => reflect.Uint16
  | VUint W32 _ => reflect.Uint32
  | VUint W64 _ => reflect.Uint64
  | VUintptr _ => reflect.Uintptr
  | VFloat32 _ => reflect.Float32
  | VFloat64 _ => reflect.Float64
  | VString _ => reflect.String
  | VSlice _ _ => reflect.Slice
  | VOpaque OComplex64 _ _ => reflect.Complex64
  | VOpaque OComplex128 _ _ => reflect.Complex128
  | VOpaque OArray _ _ => reflect.Array
  | VOpaque OChan _ _ => reflect.Chan
  | VOpaque OFunc _ _ => reflect.Func
  | VOpaque OMap _ _ => reflect.Map
  | VOpaque OPointer _ _ => reflect.Pointer
  | VOpaque OStruct _ _ => reflect.Struct
  | VOpaque OUnsafePointer _ _ => reflect.UnsafePointer
  end.

Definition width_suffix (w : width) : string :=
  match w with W => "" | W8 => "8" | W16 => "16" | W32 => "32" | W64 => "64" end.

(** [reflect.Value.Type] panics on the zero Value.  Values of the basic
    kinds are given their predeclared type's name. *)
Definition Value_Type (v : value) : outcome string :=
  match v with
  | VNil => Panics "reflect: call of reflect.Value.Type on zero Value"
  | VBool _ => Returns "bool"
  | VInt w _ => Returns ("int" +:+ width_suffix w)
  | VUint w _ => Returns ("uint" +:+ width_suffix w)
  | VUintptr _ => Returns "uintptr"
  | VFloat32 _ => Returns "float32"
  | VFloat64 _ => Returns "float64"
  | VString _ => Returns "string"
  | VSlice ty _ => Returns ty
  | VOpaque _ ty _ => Returns ty
  end.

(** [reflect.Value.String] is the one accessor that does not panic on
    another kind. *)
Definition Value_String (v : value) : outcome string :=
  match v with
  | VString s => Returns s
  | VNil => Returns "<invalid Value>"
  | _ => ty ← Value_Type v; Returns ("<" +:+ ty +:+ " Value>")
  end.

Definition Value_Bool (v : value) : outcome bool :=
  match v with
  | VBool b => Returns b
  | _ => Panics "reflect: call of reflect.Value.Bool on non-bool Value"
  end.

Definition Value_Int (v : value) : outcome Z :=
  match v with
  | VInt _ i => Returns i
  | _ => Panics "reflect: call of reflect.Value.Int on non-int Value"
  end.

Definition Value_Uint (v : value) : outcome Z :=
  match v with
  | VUint _ u | VUintptr u => Returns u
  | _ => Panics "reflect: call of reflect.Value.Uint on non-uint Value"
  end.

Definition Value_Float (v : value) : outcome float64 :=
  match v with
  | VFloat32 f | VFloat64 f => Returns f
  | _ => Panics "reflect: call of reflect.Value.Float on non-float Value"
  end.

(** strconv, bases and formats as the package passes them. *)
Definition FormatBool (b : bool) : string := if b then "true" else "false".
Definition FormatInt (i : Z) : string := pretty i.
Definition FormatUint (u : Z) : string := pretty u.

(** The values of the types a query option may have unless its key is a
    JSON key: string, bool, integer, float.  Nil is not among them. *)
Definition scalar (v : value) : bool :=
  match v with
  | VBool _ | VInt _ _ | VUint _ _ | VUintptr _ | VFloat32 _ | VFloat64 _
  | VString _ => true
  | VNil | VSlice _ _ | VOpaque _ _ _ => false
  end.

(** ** Documents *)

(** Modelled from the spec: the file declaring [View] is not among the
    sources; a view is a map function and an optional reduce function. *)
Record View : Type := mkView {
  MapFn : string;
  ReduceFn : string
}.

(** Modelled from the spec: the file declaring [Design] is not among the
    sources; a design document is an identifier, a revision and named view
    definitions.  couchdb.go reads and writes [ID] and [Rev]. *)
Record Design : Type := mkDesign {
  ID : string;
  Rev : string;
  Views : gmap string View
}.

(** [&Design{}]. *)
Definition Design_zero : Design := {| ID := ""; Rev := ""; Views := ∅ |}.

Definition set_Rev (d : Design) (rev : string) : Design :=
  {| ID := ID d; Rev := rev; Views := Views d |}.

Record Members : Type := mkMembers {
  Names : list string;
  Roles : list string
}.

Record Security : Type := mkSecurity {
  Admins : Members;
  Members' : Members
}.

(** [new(Security)]. *)
Definition Security_zero : Security :=
  {| Admins := {| Names := []; Roles := [] |};
     Members' := {| Names := []; Roles := [] |} |}.

(** The anonymous [struct{ Error, Reason string }] of parseError. *)
Record reply : Type := mkReply {
  reply_Error : string;
  reply_Reason : string
}.

(** ** net/http: requests and responses *)

(** A value of the interface type [context.Context]: nil,
    [context.Background()], or a context derived from it.  The package
    compares a context with [context.Background()] and hands it to
    [WithContext]. *)
Inductive Context : Type :=
| nilContext
| Background
| Derived (n : nat).

#[global] Instance Context_eq_dec : EqDecision Context.
Proof. solve_decision. Defined.

(** A header holds the values of each (canonical) field name. *)
Abbreviation Header := (gmap string (list string)).

Definition Header_Get (h : Header) (key : string) : string :=
  match h !! key with
  | Some (x :: _) => x
  | _ => ""
  end.

Definition Header_Set (h : Header) (key val : string) : Header :=
  <[key := [val]]> h.

(** URLs are kept as text: [req_URL] is the string given to
    [http.NewRequest], and [URL.String()] returns it. *)
Record Request : Type := mkRequest {
  req_Method : string;
  req_URL : string;
  req_Header : Header;
  req_Body : option string;
  req_Context : Context
}.

(** What reading a response body to its end gives: the bytes, and the
    error if the read failed. *)
Record Body : Type := mkBody {
  body_bytes : string;
  body_err : option string
}.

Record Response : Type := mkResponse {
  resp_StatusCode : Z;
  resp_Header : Header;
  resp_ContentLength : Z;
  resp_Body : Body;
  resp_Request : Request
}.

(** ** The Go runtime the package runs on *)

(** [json.Marshal]: the JSON text, or the text of its error. *)
Class JSONMarshal (T : Type) := json_Marshal : T -> string + string.

(** [json.Unmarshal data &v]: the target as the call leaves it, and the
    text of its error if decoding failed. *)
Class JSONUnmarshal (T : Type) := json_Unmarshal : string -> T -> T * option string.

Class Runtime : Type := {
  (** the state of everything behind the HTTP client *)
  World : Type;
  (** [http.NewRequest method url _] fails on a method or URL it cannot parse *)
  NewRequest_check : string -> string -> option string;
  (** [%q] of fmt *)
  strconv_Quote : string -> string;
  (** [strconv.FormatFloat f fmt prec bitSize] *)
  strconv_FormatFloat : float64 -> ascii -> Z -> Z -> string;
  (** The [ViewChecksum] method of [*Design], declared with [Design]. *)
  ViewChecksum : Design -> string;
  value_JSONMarshal :: JSONMarshal value;
  Design_JSONMarshal :: JSONMarshal Design;
  Design_JSONUnmarshal :: JSONUnmarshal Design;
  Security_JSONUnmarshal :: JSONUnmarshal Security;
  reply_JSONUnmarshal :: JSONUnmarshal reply
}.

(** ** Query options *)

(** An [Options] map is embedded by its entries in the order in which a
    [range] statement visits them, which Go leaves unspecified. *)
Abbreviation Options := (list (string * value)).

(** The orders in which a map can be ranged over. *)
Definition ranges (m : gmap string value) (opts : Options) : Prop :=
  opts ≡ₚ map_to_list m.

Section Encoding.
Context `{Runtime}.

(** [fmt.Errorf("invalid option %q: %v", k, err)]. *)
Definition invalid_option (k : string) (err : error) : error :=
  foreignError ("invalid option " +:+ strconv_Quote k +:+ ": " +:+ error_text err).

(** [encval w k v], with [w] the bytes.Buffer of encopts: the buffer after
    the call and the error returned.  Writing to a buffer does not fail. *)
Definition encval (w : string) (k : string) (v : value)
  : outcome (string * option error) :=
  match v with
  | VNil => Returns (w, Some (foreignError "value is nil"))
  | _ =>
    let rv := v in
    str ← match Value_Kind rv with
          | reflect.String =>
              s ← Value_String rv; Returns (inl (QueryEscape s))
          | reflect.Bool =>
              b ← Value_Bool rv; Returns (inl (FormatBool b))
          | reflect.Int | reflect.Int8 | reflect.Int16 | reflect.Int32
          | reflect.Int64 =>
              i ← Value_Int rv; Returns (inl (FormatInt i))
          | reflect.Uint | reflect.Uint8 | reflect.Uint16 | reflect.Uint32
          | reflect.Uint64 =>
              u ← Value_Uint rv; Returns (inl (FormatUint u))
          | reflect.Float32 =>
              f ← Value_Float rv;
              Returns (inl (strconv_FormatFloat f "f" (-1) 32))
          | reflect.Float64 =>
              f ← Value_Float rv;
              Returns (inl (strconv_FormatFloat f "f" (-1) 64))
          | _ =>
              ty ← Value_Type rv;
              Returns (inr (foreignError ("unsupported type: " +:+ ty)))
          end;
    match str with
    | inl str => Returns (w +:+ str, None)
    | inr err => Returns (w, Some err)
    end
  end.

(** The inner loop of encopts: is [k] one of [jskeys]? *)
Fixpoint isjson (k : string) (jskeys : list string) : bool :=
  match jskeys with
  | [] => false
  | jskey :: jskeys' => if String.eqb k jskey then true else isjson k jskeys'
  end.

(** The [range] loop of encopts over the entries still to visit. *)
Fixpoint encopts_loop (opts : Options) (jskeys : list string)
    (buf : string) (amp : bool) : outcome (string * option error) :=
  match opts with
  | [] => Returns (buf, None)
  | (k, v) :: opts' =>
    let buf := if amp then buf +:+ "&" else buf in
    let buf := (buf +:+ QueryEscape k) +:+ "=" in
    if isjson k jskeys then
      match json_Marshal v with
      | inr err => Returns ("", Some (invalid_option k (foreignError err)))
      | inl jsonv => encopts_loop opts' jskeys (buf +:+ QueryEscape jsonv) true
      end
    else
      r ← encval buf k v;
      match r with
      | (_, Some err) => Returns ("", Some (invalid_option k err))
      | (buf, None) => encopts_loop opts' jskeys buf true
      end
  end.

Definition encopts (opts : Options) (jskeys : list string)
  : outcome (string * option error) :=
  encopts_loop opts jskeys "?" false.

Definition optpath (opts : Options) (jskeys : list string) (segs : list string)
  : outcome (string * option error) :=
  let r := path segs in
  if 0 <? Z.of_nat (length opts) then
    r' ← encopts opts jskeys;
    match r' with
    | (_, Some err) => Returns ("", Some err)
    | (os, None) => Returns (r +:+ os, None)
    end
  else Returns (r, None).

End Encoding.

(** A key and the JSON text of its value as they stand in a query string. *)
Definition query_pair (k jsonv : string) : string :=
  QueryEscape k +:+ "=" +:+ QueryEscape jsonv.

Definition getJsonKeys : list string := ["open_revs"; "atts_since"].
Definition viewJsonKeys : list string :=
  ["startkey"; "start_key"; "key"; "endkey"; "end_key"; "keys"].

(** ** The transport *)

(** What a run of the package does to the outside: requests handed to the
    HTTP client, and response bodies read to their end or closed. *)
Inductive Event : Type :=
| Sent (req : Request)
| BodyRead (resp : Response)
| BodyClosed (resp : Response).

Definition is_PUT (e : Event) : bool :=
  match e with
  | Sent req => String.eqb (req_Method req) "PUT"
  | _ => false
  end.

(** The requests of method PUT in a trace. *)
Definition PUTs (tr : list Event) : list Event := List.filter is_PUT tr.

Definition is_body_event (resp : Response) (e : Event) : Prop :=
  e = BodyRead resp \/ e = BodyClosed resp.

(** Go's [s[lo:hi]] on a string. *)
Definition slice (s : string) (lo hi : Z) : outcome string :=
  if (0 <=? lo) && (lo <=? hi) && (hi <=? Z.of_nat (String.length s)) then
    Returns (substring (Z.to_nat lo) (Z.to_nat (hi - lo)) s)
  else Panics "slice bounds out of range".

(** [responseRev resp err]: the unquoted Etag of a response. *)
Definition responseRev (r : option Response * option error)
  : outcome (string * option error) :=
  let '(resp, err) := r in
  match err with
  | Some _ => Returns ("", err)
  | None =>
    match resp with
    | None => Panics "invalid memory address or nil pointer dereference"
    | Some resp =>
      let etag := Header_Get (resp_Header resp) "Etag" in
      if String.eqb etag "" then
        Returns ("", Some (foreignError "couchdb: missing Etag header in response"))
      else
        rev ← slice etag 1 (Z.of_nat (String.length etag) - 1);
        Returns (rev, None)
    end
  end.

Section Transport.
Context `{Runtime}.

(** Modelled from the spec: the file declaring [Auth] is not among the
    sources; an authentication strategy adds credentials to an outgoing
    request, as header fields. *)
Definition Auth : Type := Header -> Header.

(** [http] stands for the [*http.Client]: its [Do] answers a request with
    a response or with the text of a transport failure.  The lock [mu]
    has no counterpart in a sequential run. *)
Record transport : Type := mkTransport {
  prefix : string;
  http : Request -> World -> (Response + string) * World;
  auth : option Auth
}.

Record State : Type := mkState {
  world : World;
  trace : list Event
}.

(** A computation reads and updates the state, and returns or panics. *)
Definition M (A : Type) : Type := State -> outcome A * State.

#[global] Instance M_ret : MRet M := fun A a s => (Returns a, s).
#[global] Instance M_bind : MBind M := fun A B k m s =>
  match m s with
  | (Returns a, s') => k a s'
  | (Panics msg, s') => (Panics msg, s')
  end.

(** The state [s] after the world has moved to [w] and [evs] happened. *)
Definition after (s : State) (w : World) (evs : list Event) : State :=
  {| world := w; trace := trace s ++ evs |}.

Definition panicM {A} (msg : string) : M A := fun s => (Panics msg, s).

Definition liftM {A} (o : outcome A) : M A := fun s => (o, s).

Definition log (e : Event) : M unit :=
  fun s => (Returns tt, {| world := world s; trace := trace s ++ [e] |}).

(** [t.http.Do(req)]. *)
Definition Do (t : transport) (req : Request) : M (Response + string) :=
  fun s =>
    let '(r, w) := http t req (world s) in
    (Returns r, {| world := w; trace := trace s ++ [Sent req] |}).

(** [ioutil.ReadAll(resp.Body)]. *)
Definition ReadAll (resp : Response) : M (string * option error) :=
  _ ← log (BodyRead resp);
  mret (body_bytes (resp_Body resp), foreignError <$> body_err (resp_Body resp)).

(** [resp.Body.Close()]. *)
Definition Close (resp : Response) : M unit := log (BodyClosed resp).

(** [http.NewRequest]: an empty method means GET. *)
Definition http_NewRequest (method url : string) (body : option string)
  : Request + error :=
  match NewRequest_check method url with
  | Some msg => inr (foreignError msg)
  | None =>
    inl {| req_Method := if String.eqb method "" then "GET" else method;
           req_URL := url;
           req_Header := ∅;
           req_Body := body;
           req_Context := Background |}
  end.

(** [req.WithContext(ctx)] panics on a nil context. *)
Definition WithContext (req : Request) (ctx : Context) : outcome Request :=
  match ctx with
  | nilContext => Panics "nil context"
  | _ =>
    Returns {| req_Method := req_Method req; req_URL := req_URL req;
               req_Header := req_Header req; req_Body := req_Body req;
               req_Context := ctx |}
  end.

Definition with_header (req : Request) (h : Header) : Request :=
  {| req_Method := req_Method req; req_URL := req_URL req;
     req_Header := h;
     req_Body := req_Body req; req_Context := req_Context req |}.

Definition set_header (req : Request) (key val : string) : Request :=
  with_header req (Header_Set (req_Header req) key val).

(** [a.AddAuth(req)]. *)
Definition AddAuth (a : Auth) (req : Request) : Request :=
  with_header req (a (req_Header req)).

(** [if method != "GET" { req.Header.Set("Content-Type", "application/json") }]. *)
Definition json_content_type (method : string) (req : Request) : Request :=
  if negb (String.eqb method "GET")
  then set_header req "Content-Type" "application/json"
  else req.

Definition newRequest (t : transport) (ctx : Context) (method path : string)
    (body : option string) : outcome (option Request * option error) :=
  match http_NewRequest method (prefix t +:+ path) body with
  | inr err => Returns (None, Some err)
  | inl req =>
    req ← (if decide (ctx ≠ Background) then WithContext req ctx else Returns req);
    let req := match auth t with
               | Some a => AddAuth a req
               | None => req
               end in
    Returns (Some req, None)
  end.

(** [readBody resp &v]: the deferred Close runs on every path. *)
Definition readBody {T} `{JSONUnmarshal T} (resp : Response) (v : T)
  : M (T * option error) :=
  '(body, err) ← ReadAll resp;
  let r := match err with
           | Some _ => (v, err)
           | None =>
             let '(v', err) := json_Unmarshal body v in
             (v', foreignError <$> err)
           end in
  _ ← Close resp;
  mret r.

(** [fmt.Sprintf("unknown, couldn't decode CouchDB error: %v", err)]. *)
Definition unknown_marker (err : error) : string :=
  "unknown, couldn't decode CouchDB error: " +:+ error_text err.

Definition parseError (resp : Response) : M error :=
  let reply0 := {| reply_Error := ""; reply_Reason := "" |} in
  rep ← (if negb (String.eqb (req_Method (resp_Request resp)) "HEAD") then
           '(rep, err) ← readBody resp reply0;
           match err with
           | Some err =>
             let unknown := unknown_marker err in
             mret {| reply_Error := unknown; reply_Reason := unknown |}
           | None => mret rep
           end
         else mret reply0);
  mret (serverError {| Method := req_Method (resp_Request resp);
                       URL := req_URL (resp_Request resp);
                       StatusCode := resp_StatusCode resp;
                       ErrorCode := reply_Error rep;
                       Reason := reply_Reason rep |}).

(** [t.request ctx method path body]. *)
Definition request (t : transport) (ctx : Context) (method path : string)
    (body : option string) : M (option Response * option error) :=
  '(req, err) ← liftM (newRequest t ctx method path body);
  match err with
  | Some _ => mret (None, err)
  | None =>
    match req with
    | None => panicM "invalid memory address or nil pointer dereference"
    | Some req =>
      let req := json_content_type method req in
      r ← Do t req;
      match r with
      | inr msg => mret (None, Some (foreignError msg))
      | inl resp =>
        if 400 <=? resp_StatusCode resp then
          err ← parseError resp; mret (None, Some err)
        else mret (Some resp, None)
      end
    end
  end.

(** [t.closedRequest]: the body is read to its end and closed. *)
Definition closedRequest (t : transport) (ctx : Context) (method path : string)
    (body : option string) : M (option Response * option error) :=
  '(resp, err) ← request t ctx method path body;
  _ ← match err with
      | None =>
        match resp with
        | None => panicM "invalid memory address or nil pointer dereference"
        | Some r => _ ← log (BodyRead r); Close r
        end
      | Some _ => mret tt
      end;
  mret (resp, err).

End Transport.

(** ** Databases *)

Section Database.
Context `{Runtime}.

(** [ContextAwareDB]: the embedded transport and the database's name. *)
Record ContextAwareDB : Type := mkDB {
  db_transport : transport;
  name : string
}.

(** [db.Get ctx id doc opts]: [doc] is the target decoded into; the result
    carries the target as the call leaves it. *)
Definition Get {T} `{JSONUnmarshal T} (db : ContextAwareDB) (ctx : Context)
    (id : string) (doc : T) (opts : Options) : M (T * option error) :=
  '(path, err) ← liftM (optpath opts getJsonKeys [name db; id]);
  match err with
  | Some _ => mret (doc, err)
  | None =>
    '(resp, err) ← request (db_transport db) ctx "GET" path None;
    match err with
    | Some _ => mret (doc, err)
    | None =>
      match resp with
      | None => panicM "invalid memory address or nil pointer dereference"
      | Some resp => readBody resp doc
      end
    end
  end.

(** [db.Rev ctx id]. *)
Definition db_Rev (db : ContextAwareDB) (ctx : Context) (id : string)
  : M (string * option error) :=
  r ← closedRequest (db_transport db) ctx "HEAD" (path [name db; id]) None;
  liftM (responseRev r).

(** [db.Put ctx id doc rev]. *)
Definition Put {T} `{JSONMarshal T} (db : ContextAwareDB) (ctx : Context)
    (id : string) (doc : T) (rev : string) : M (string * option error) :=
  let path := revpath rev [name db; id] in
  match json_Marshal doc with
  | inr msg => mret ("", Some (foreignError msg))
  | inl json =>
    r ← closedRequest (db_transport db) ctx "PUT" path (Some json);
    liftM (responseRev r)
  end.

(** [db.Delete ctx id rev]. *)
Definition Delete (db : ContextAwareDB) (ctx : Context) (id rev : string)
  : M (string * option error) :=
  let path := revpath rev [name db; id] in
  r ← closedRequest (db_transport db) ctx "DELETE" path None;
  liftM (responseRev r).

(** [db.Security ctx]. *)
Definition db_Security (db : ContextAwareDB) (ctx : Context)
  : M (option Security * option error) :=
  let secobj := Security_zero in
  '(resp, err) ← request (db_transport db) ctx "GET" (path [name db; "_security"]) None;
  match err with
  | Some _ => mret (None, err)
  | None =>
    match resp with
    | None => panicM "invalid memory address or nil pointer dereference"
    | Some resp =>
      if resp_ContentLength resp =? 0 then mret (Some secobj, None)
      else
        '(secobj, err) ← readBody resp secobj;
        match err with
        | Some _ => mret (None, err)
        | None => mret (Some secobj, None)
        end
    end
  end.

(** [db.SyncDesign ctx d]: [d] is passed by pointer; the result carries the
    design as the call leaves it, next to the error returned. *)
Definition SyncDesign (db : ContextAwareDB) (ctx : Context) (d : Design)
  : M (Design * option error) :=
  let prev := Design_zero in
  '(prev, err) ← Get db ctx (ID d) prev [];
  failed ← (match err with
            | Some _ => missing ← liftM (NotFound err); mret (negb missing)
            | None => mret false
            end : M bool);
  if (failed : bool) then
    mret (d, err)
  else if negb (String.eqb (Rev prev) "")
          && String.eqb (ViewChecksum d) (ViewChecksum prev) then
    mret (set_Rev d (Rev prev), None)
  else
    let d := set_Rev d "" in
    '(rev, err) ← Put db ctx (ID d) d (Rev prev);
    match err with
    | Some _ => mret (d, err)
    | None => mret (set_Rev d rev, None)
    end.

End Database.

(** ** A runtime to evaluate the package on examples

    The package's tests run against a client whose handlers answer each
    request from a table.  [TestRuntime] is that set-up: encoding/json is
    given on the values and documents the examples use, and a handler maps
    a request to its answer. *)

Module TestRuntime.

(** A double quote for each apostrophe, to write JSON texts. *)
Fixpoint jq (s : string) : string :=
  match s with
  | EmptyString => EmptyString
  | String c s' =>
    String (if Ascii.eqb c "'" then "034"%char else c) (jq s')
  end.

Fixpoint join (sep : string) (l : list string) : string :=
  match l with
  | [] => ""
  | [x] => x
  | x :: l' => x +:+ sep +:+ join sep l'
  end.

(** [json.Marshal] on nil, booleans, integers, text that needs no escape
    and slices of those. *)
Fixpoint marshal_value (v : value) : string + string :=
  match v with
  | VNil => inl "null"
  | VBool b => inl (FormatBool b)
  | VInt _ i => inl (FormatInt i)
  | VUint _ u | VUintptr u => inl (FormatUint u)
  | VString s => inl (jq "'" +:+ s +:+ jq "'")
  | VSlice _ elems =>
    let fix go (l : list value) : list string + string :=
      match l with
      | [] => inl []
      | x :: l' =>
        match marshal_value x, go l' with
        | inl j, inl js => inl (j :: js)
        | inr e, _ => inr e
        | _, inr e => inr e
        end
      end in
    match go elems with
    | inl js => inl ("[" +:+ join "," js +:+ "]")
    | inr e => inr e
    end
  | VFloat32 _ | VFloat64 _ => inr "json: float outside the examples"
  | VOpaque _ ty _ => inr ("json: unsupported type: " +:+ ty)
  end.

Fixpoint lookup_text {T} (table : list (string * T)) (data : string) : option T :=
  match table with
  | [] => None
  | (k, x) :: table' => if String.eqb k data then Some x else lookup_text table' data
  end.

(** [json.Unmarshal] on the texts of a table. *)
Definition unmarshal_table {T} (table : list (string * T)) (data : string) (v : T)
  : T * option string :=
  match lookup_text table data with
  | Some x => (x, None)
  | None =>
    (v, Some (if String.eqb data "" then "unexpected end of JSON input"
              else "invalid character looking for beginning of value"))
  end.

Definition by_created_at : View :=
  {| MapFn := "function(d) { if (d['created_at']) { emit(d['created_at'], 1); } }";
     ReduceFn := "_sum" |}.

Definition by_created_at_null : View :=
  {| MapFn := "function(d) { if (d['created_at']) { emit(d['created_at'], null); } }";
     ReduceFn := "" |}.

(** The design of the tests, as built locally and as two remote states. *)
Definition local_design : Design :=
  {| ID := "_design/test"; Rev := ""; Views := {["by_created_at" := by_created_at]} |}.

Definition remote_same : Design :=
  {| ID := "_design/test"; Rev := "1-619db7ba8551c0de3f3a178775509611";
     Views := {["by_created_at" := by_created_at]} |}.

Definition remote_other : Design :=
  {| ID := "_design/test"; Rev := "1-619db7ba8551c0de3f3a178775509611";
     Views := {["by_created_at" := by_created_at_null]} |}.

(** A local design that still carries the revision of another database. *)
Definition stale_design : Design :=
  {| ID := "_design/test"; Rev := "7-0f1e2d"; Views := {["by_created_at" := by_created_at]} |}.

Definition remote_same_json : string :=
  jq "{'_id':'_design/test','_rev':'1-619db7ba8551c0de3f3a178775509611','views':'same'}".

Definition remote_other_json : string :=
  jq "{'_id':'_design/test','_rev':'1-619db7ba8551c0de3f3a178775509611','views':'other'}".

Definition not_found_json : string :=
  jq "{'error':'not_found','reason':'error reason'}".

Definition security_json : string :=
  jq "{'admins':{'names':['adminName1']},'members':{}}".

Definition view_text (kv : string * View) : string :=
  kv.1 +:+ "=" +:+ MapFn kv.2 +:+ ";" +:+ ReduceFn kv.2 +:+ ";".

Definition runtime : Runtime := {|
  World := unit;
  NewRequest_check := fun _ _ => None;
  strconv_Quote := fun s => jq "'" +:+ s +:+ jq "'";
  strconv_FormatFloat := fun _ _ _ _ => "0";
  ViewChecksum := fun d => join "" (view_text <$> map_to_list (Views d));
  value_JSONMarshal := marshal_value;
  Design_JSONMarshal := fun d =>
    inl (jq "{'_id':'" +:+ ID d +:+ jq "','_rev':'" +:+ Rev d +:+ jq "'}");
  Design_JSONUnmarshal :=
    unmarshal_table [(remote_same_json, remote_same); (remote_other_json, remote_other)];
  Security_JSONUnmarshal :=
    unmarshal_table
      [(security_json,
        {| Admins := {| Names := ["adminName1"]; Roles := [] |};
           Members' := {| Names := []; Roles := [] |} |})];
  reply_JSONUnmarshal :=
    unmarshal_table
      [(not_found_json, {| reply_Error := "not_found"; reply_Reason := "error reason" |})]
|}.

#[local] Existing Instance runtime.

(** A response as a handler of the tests writes it. *)
Definition respond (status : Z) (header : Header) (body : string) (req : Request)
  : Response :=
  {| resp_StatusCode := status;
     resp_Header := header;
     resp_ContentLength := Z.of_nat (String.length body);
     resp_Body := {| body_bytes := body; body_err := None |};
     resp_Request := req |}.

(** The PUT of a document as the client sends it. *)
Definition put_doc : Request :=
  {| req_Method := "PUT"; req_URL := "http://testClient:5984/db/doc";
     req_Header := ∅; req_Body := Some "{}"; req_Context := Background |}.

(** A client that answers from a handler and keeps no state. *)
Definition client (handler : Request -> Response + string) : transport :=
  {| prefix := "http://testClient:5984";
     http := fun req w => (handler req, w);
     auth := None |}.

Definition start : State := {| world := tt; trace := [] |}.

(** The header of a reply that carries a revision. *)
Definition etag (rev : string) : Header := {["Etag" := [jq "'" +:+ rev +:+ jq "'"]]}.

(** A document that is missing: the handler answers 404 with CouchDB's
    error object. *)
Definition missing_doc (req : Request) : Response + string :=
  inl (respond 404 ∅ not_found_json req).

Definition is_method (m : string) (req : Request) : bool :=
  String.eqb (req_Method req) m.

(** The remote design is the local one: TestSyncDesignNoChange. *)
Definition unchanged_remote (req : Request) : Response + string :=
  if is_method "GET" req then inl (respond 200 ∅ remote_same_json req)
  else inr "no handler".

(** There is no remote design yet: TestSyncDesignCreate. *)
Definition absent_remote (req : Request) : Response + string :=
  if is_method "GET" req then inl (respond 404 ∅ not_found_json req)
  else if is_method "PUT" req then
    inl (respond 201 (etag "1-619db7ba8551c0de3f3a178775509611") "{}" req)
  else inr "no handler".

(** The remote design has another map function: TestSyncDesignUpdate. *)
Definition changed_remote (req : Request) : Response + string :=
  if is_method "GET" req then inl (respond 200 ∅ remote_other_json req)
  else if is_method "PUT" req then
    inl (respond 201 (etag "2-619db7ba8551c0de3f3a178775509611") "{}" req)
  else inr "no handler".

(** The server fails on every request. *)
Definition failing_remote (req : Request) : Response + string :=
  inl (respond 500 ∅ "" req).


(** The design appears between the fetch and the write. *)
Definition conflicting_remote (req : Request) : Response + string :=
  if is_method "GET" req then inl (respond 404 ∅ not_found_json req)
  else inl (respond 409 ∅ "" req).

(** No security object has been set: TestEmptySecurity. *)
Definition empty_security (req : Request) : Response + string :=
  inl (respond 200 ∅ "" req).

Definition db (handler : Request -> Response + string) : ContextAwareDB :=
  {| db_transport := client handler; name := "db" |}.

(** [Options{"startkey": []string{"a", "b"}}]. *)
Definition startkey_ab : gmap string value :=
  {["startkey" := VSlice "[]string" [VString "a"; VString "b"]]}.

(** [Options{"startkey": nil}] and [Options{"limit": nil}]. *)
Definition startkey_nil : gmap string value := {["startkey" := VNil]}.
Definition limit_nil : gmap string value := {["limit" := VNil]}.

End TestRuntime.

(** ** The rest of http.go, couchdb.go and the client *)

(** [opts.clone()]: the entries are written into a fresh map in the order
    in which the range statement visits them. *)
Definition clone (opts : Options) : gmap string value :=
  foldl (fun result kv => <[kv.1 := kv.2]> result) ∅ opts.

Definition in_cutset (c : ascii) (cutset : string) : bool :=
  negb (string_forall (fun x => negb (Ascii.eqb x c)) cutset).

(** [strings.TrimRight s cutset]: the trailing bytes that are in [cutset]
    are dropped. *)
Fixpoint TrimRight (s cutset : string) : string :=
  match s with
  | EmptyString => EmptyString
  | String c s' =>
    let r := TrimRight s' cutset in
    if String.eqb r "" && in_cutset c cutset then EmptyString else String c r
  end.

Fixpoint drop_bytes (n : nat) (s : string) : string :=
  match n, s with
  | O, _ => s
  | S _, EmptyString => EmptyString
  | S n', String _ s' => drop_bytes n' s'
  end.

(** [strings.Replace s old new 1]: the leftmost occurrence of [old]. *)
Fixpoint Replace_first (s old new : string) : string :=
  if String.prefix old s then new +:+ drop_bytes (String.length old) s
  else match s with
       | EmptyString => EmptyString
       | String c s' => String c (Replace_first s' old new)
       end.

(** The occurrences of a byte in a text. *)
Fixpoint count_byte (c : ascii) (s : string) : nat :=
  match s with
  | EmptyString => O
  | String x s' => (if Ascii.eqb x c then 1 else 0) + count_byte c s'
  end.

(** net/http's [StatusPreconditionFailed]. *)
Definition StatusPreconditionFailed : Z := 412.

(** The methods of the requests handed to the client, in order. *)
Definition sent_methods (tr : list Event) : list string :=
  tr ≫= fun e => match e with Sent req => [req_Method req] | _ => [] end.

(** The responses whose body was closed, and those whose body was read
    to its end, in order. *)
Definition closed_bodies (tr : list Event) : list Response :=
  tr ≫= fun e => match e with BodyClosed resp => [resp] | _ => [] end.

Definition read_bodies (tr : list Event) : list Response :=
  tr ≫= fun e => match e with BodyRead resp => [resp] | _ => [] end.

(** Each text with [sep] before it. *)
Fixpoint prefixed (sep : string) (l : list string) : string :=
  match l with
  | [] => ""
  | x :: l' => sep +:+ x +:+ prefixed sep l'
  end.

(** [strings.Join l sep]. *)
Definition Join (l : list string) (sep : string) : string :=
  match l with
  | [] => ""
  | x :: l' => x +:+ prefixed sep l'
  end.

(** A revision as an Etag header carries it: between double quotes. *)
Definition quoted (rev : string) : string :=
  String "034" (rev +:+ String "034" "").

(** What parseError does to the body of a failed response. *)
Definition parseError_events (resp : Response) : list Event :=
  if String.eqb (req_Method (resp_Request resp)) "HEAD" then []
  else [BodyRead resp; BodyClosed resp].

(** The bytes of a path: separators and what QueryEscape leaves. *)
Definition path_byte (c : ascii) : bool := Ascii.eqb c "/" || query_value_char c.

(** The kinds encval has a case for. *)
Definition encodable (v : value) : bool :=
  match v with
  | VBool _ | VInt _ _ | VUint _ _ | VFloat32 _ | VFloat64 _ | VString _ => true
  | VNil | VUintptr _ | VSlice _ _ | VOpaque _ _ _ => false
  end.

Section EntryText.
Context `{Runtime}.

(** The text of a value of an encodable kind in a query string. *)
Definition scalar_text (v : value) : string :=
  match v with
  | VString s => QueryEscape s
  | VBool b => FormatBool b
  | VInt _ i => FormatInt i
  | VUint _ u => FormatUint u
  | VFloat32 f => strconv_FormatFloat f "f" (-1) 32
  | VFloat64 f => strconv_FormatFloat f "f" (-1) 64
  | _ => ""
  end.

(** What one entry of an option map contributes to the query string, if
    it can be encoded. *)
Definition entry_text (jskeys : list string) (kv : string * value) : option string :=
  if isjson kv.1 jskeys then
    match json_Marshal kv.2 with
    | inl jsonv => Some (query_pair kv.1 jsonv)
    | inr _ => None
    end
  else if encodable kv.2 then Some (QueryEscape kv.1 +:+ "=" +:+ scalar_text kv.2)
  else None.

End EntryText.

(** The result struct of responseIDRev. *)
Record idrev : Type := mkIdrev {
  idrev_ID : string;
  idrev_Rev : string
}.

Section Client.
Context `{Runtime}.
Context `{!JSONUnmarshal idrev} `{!JSONUnmarshal (list string)}
  `{!JSONMarshal Security}.

(** The client Go uses when none is given, [&http.Client{}]. *)
Variable DefaultClient : Request -> World -> (Response + string) * World.

Definition newTransport (pfx : string)
    (httpClient : option (Request -> World -> (Response + string) * World))
    (a : option Auth) : transport :=
  let httpClient := match httpClient with
                    | None => DefaultClient
                    | Some c => c
                    end in
  {| prefix := TrimRight pfx "/"; http := httpClient; auth := a |}.


(** [t.setAuth(a)], on the transport's value. *)
Definition setAuth (t : transport) (a : option Auth) : transport :=
  {| prefix := prefix t; http := http t; auth := a |}.

Definition responseIDRev (resp : Response) : M (string * string * option error) :=
  '(res, err) ← readBody resp {| idrev_ID := ""; idrev_Rev := "" |};
  match err with
  | Some _ => mret ("", "", err)
  | None => mret (idrev_ID res, idrev_Rev res, None)
  end.

(** [db.Post ctx doc]. *)
Definition Post {T} `{JSONMarshal T} (db : ContextAwareDB) (ctx : Context) (doc : T)
  : M (string * string * option error) :=
  let path := revpath "" [name db] in
  match json_Marshal doc with
  | inr msg => mret ("", "", Some (foreignError msg))
  | inl json =>
    '(resp, err) ← request (db_transport db) ctx "POST" path (Some json);
    match err with
    | Some _ => mret ("", "", err)
    | None =>
      match resp with
      | None => panicM "invalid memory address or nil pointer dereference"
      | Some resp => responseIDRev resp
      end
    end
  end.

(** [db.PutSecurity ctx secobj]: the error of json.Marshal is dropped, and
    with it the text is empty. *)
Definition PutSecurity (db : ContextAwareDB) (ctx : Context) (secobj : Security)
  : M (option error) :=
  let json := match json_Marshal secobj with
              | inl json => json
              | inr _ => ""
              end in
  '(_, err) ← request (db_transport db) ctx "PUT" (path [name db; "_security"])
                (Some json);
  mret err.

(** [db.View ctx ddoc view result opts]. *)
Definition db_View {T} `{JSONUnmarshal T} (db : ContextAwareDB) (ctx : Context)
    (ddoc view : string) (result : T) (opts : Options) : M (T * option error) :=
  let ddoc := Replace_first ddoc "_design/" "" in
  '(path, err) ← liftM (optpath opts viewJsonKeys
                          [name db; "_design"; ddoc; "_view"; view]);
  match err with
  | Some _ => mret (result, err)
  | None =>
    '(resp, err) ← request (db_transport db) ctx "GET" path None;
    match err with
    | Some _ => mret (result, err)
    | None =>
      match resp with
      | None => panicM "invalid memory address or nil pointer dereference"
      | Some resp => readBody resp result
      end
    end
  end.

(** [db.AllDocs ctx result opts]. *)
Definition AllDocs {T} `{JSONUnmarshal T} (db : ContextAwareDB) (ctx : Context)
    (result : T) (opts : Options) : M (T * option error) :=
  '(path, err) ← liftM (optpath opts viewJsonKeys [name db; "_all_docs"]);
  match err with
  | Some _ => mret (result, err)
  | None =>
    '(resp, err) ← request (db_transport db) ctx "GET" path None;
    match err with
    | Some _ => mret (result, err)
    | None =>
      match resp with
      | None => panicM "invalid memory address or nil pointer dereference"
      | Some resp => readBody resp result
      end
    end
  end.

(** [ContextAwareClient]: the embedded transport. *)
Record ContextAwareClient : Type := mkClient {
  client_transport : transport
}.

(** [c.URL()]. *)
Definition Client_URL (c : ContextAwareClient) : string :=
  prefix (client_transport c).

(** [c.DB(name)]. *)
Definition Client_DB (c : ContextAwareClient) (nm : string) : ContextAwareDB :=
  {| db_transport := client_transport c; name := nm |}.

(** [c.Ping ctx]. *)
Definition Ping (c : ContextAwareClient) (ctx : Context) : M (option error) :=
  '(_, err) ← closedRequest (client_transport c) ctx "HEAD" "/" None;
  mret err.

(** [c.CreateDB ctx name]. *)
Definition CreateDB (c : ContextAwareClient) (ctx : Context) (nm : string)
  : M (option ContextAwareDB * option error) :=
  '(_, err) ← closedRequest (client_transport c) ctx "PUT" (path [nm]) None;
  match err with
  | Some _ => mret (Some (Client_DB c nm), err)
  | None => mret (Some (Client_DB c nm), None)
  end.

(** [c.CreateDBWithShards ctx name shards]; [%d] prints in base 10. *)
Definition CreateDBWithShards (c : ContextAwareClient) (ctx : Context)
    (nm : string) (shards : Z) : M (option ContextAwareDB * option error) :=
  '(_, err) ← closedRequest (client_transport c) ctx "PUT"
                (path [nm] +:+ "?q=" +:+ pretty shards) None;
  mret (Some (Client_DB c nm), err).

(** [c.EnsureDB ctx name]. *)
Definition EnsureDB (c : ContextAwareClient) (ctx : Context) (nm : string)
  : M (option ContextAwareDB * option error) :=
  '(db, err) ← CreateDB c ctx nm;
  failed ← (match err with
            | Some _ =>
              present ← liftM (ErrorStatus err StatusPreconditionFailed);
              mret (negb present)
            | None => mret false
            end : M bool);
  if (failed : bool) then mret (None, err)
  else mret (db, None).

(** [c.DeleteDB ctx name]. *)
Definition DeleteDB (c : ContextAwareClient) (ctx : Context) (nm : string)
  : M (option error) :=
  '(_, err) ← closedRequest (client_transport c) ctx "DELETE" (path [nm]) None;
  mret err.

(** [c.AllDBs ctx]: [names] is the nil slice until it is decoded into. *)
Definition AllDBs (c : ContextAwareClient) (ctx : Context)
  : M (list string * option error) :=
  let names : list string := [] in
  '(resp, err) ← request (client_transport c) ctx "GET" "/_all_dbs" None;
  match err with
  | Some _ => mret (names, err)
  | None =>
    match resp with
    | None => panicM "invalid memory address or nil pointer dereference"
    | Some resp => readBody resp names
    end
  end.

End Client.

(** ** Bulk writes

    [BulkDocs] belongs to the variant of couchdb.go in which the database
    object keeps its context. *)

(** [DB] with its context. *)
Record DB `{Runtime} : Type := mkDBctx {
  DB_transport : transport;
  DB_name : string;
  DB_ctx : Context
}.

Record BulkDocsReq (D : Type) : Type := mkBulkDocsReq {
  Docs : list D
}.
Arguments mkBulkDocsReq {D} Docs.
Arguments Docs {D} b.

Record BulkDocsResp : Type := mkBulkDocsResp {
  bulk_OK : bool;
  bulk_ID : string;
  bulk_Rev : string;
  bulk_Error : string;
  bulk_Reason : string
}.

Section Bulk.
Context `{Runtime}.
Context {D : Type} `{!JSONMarshal (BulkDocsReq D)}
  `{!JSONUnmarshal (list BulkDocsResp)}.

(** [readBody] on a response that may be nil: the deferred
    [resp.Body.Close()] reads [resp.Body] when it is set up. *)
Definition readBody_at {T} `{JSONUnmarshal T} (resp : option Response) (v : T)
  : M (T * option error) :=
  match resp with
  | None => panicM "invalid memory address or nil pointer dereference"
  | Some resp => readBody resp v
  end.

(** [db.BulkDocs docs...]: the error of the request is overwritten by the
    one of readBody. *)
Definition BulkDocs (db : DB) (docs : list D)
  : M (list BulkDocsResp * option error) :=
  let path := revpath "" [DB_name db; "_bulk_docs"] in
  let req := {| Docs := [] ++ docs |} in
  match json_Marshal req with
  | inr msg => mret ([], Some (foreignError msg))
  | inl bodyJSON =>
    '(httpResp, _) ← request (DB_transport db) (DB_ctx db) "POST" path
                       (Some bodyJSON);
    '(res, err) ← readBody_at httpResp [];
    match err with
    | Some _ => mret ([], err)
    | None => mret (res, None)
    end
  end.

End Bulk.

(** ** More examples of the tests *)

Module Scenarios.
Import TestRuntime.
#[local] Existing Instance runtime.

Definition id_rev_json : string := jq "{'id':'doc','ok':true,'rev':'1-abc'}".

Definition bulk_json : string :=
  jq "[{'id':'Dino','error':'conflict','reason':'Document update conflict'}]".

Definition idrev_unmarshal : JSONUnmarshal idrev :=
  unmarshal_table [(id_rev_json, {| idrev_ID := "doc"; idrev_Rev := "1-abc" |})].

Definition names_unmarshal : JSONUnmarshal (list string) :=
  unmarshal_table [(jq "['a','b','c']", ["a"; "b"; "c"])].

(** A security object that cannot be marshalled does not exist in Go; the
    text of this one is fixed. *)
Definition security_marshal : JSONMarshal Security :=
  fun _ => inl (jq "{'admins':{},'members':{}}").

Definition bulk_marshal : JSONMarshal (BulkDocsReq value) :=
  fun req => inl (jq "{'docs':[]}").

Definition bulk_unmarshal : JSONUnmarshal (list BulkDocsResp) :=
  unmarshal_table
    [(bulk_json,
      [{| bulk_OK := false; bulk_ID := "Dino"; bulk_Rev := "";
          bulk_Error := "conflict"; bulk_Reason := "Document update conflict" |}])].

(** TestPut, TestDelete: every write is answered with a new revision. *)
Definition revising (req : Request) : Response + string :=
  inl (respond 201 (etag "2-619db7ba8551c0de3f3a178775509611") "{}" req).

(** A server whose Etag is a single byte. *)
Definition short_etag (req : Request) : Response + string :=
  inl (respond 201 {["Etag" := ["W"]]} "{}" req).

(** TestNewClient: no round trip succeeds. *)
Definition unreachable (req : Request) : Response + string :=
  inr "nothing to see here, move along".

(** The database exists already. *)
Definition existing_db (req : Request) : Response + string :=
  inl (respond 412 ∅ (jq "{'error':'file_exists','reason':'exists'}") req).

(** A new document gets its id and revision in the body. *)
Definition posting (req : Request) : Response + string :=
  inl (respond 201 ∅ id_rev_json req).



Definition couch (handler : Request -> Response + string) : ContextAwareClient :=
  {| client_transport := client handler |}.

Definition bulk_db (handler : Request -> Response + string) : DB :=
  {| DB_transport := client handler; DB_name := "db"; DB_ctx := Background |}.

Definition two_options : gmap string value :=
  {["limit" := VInt W 100; "reduce" := VBool false]}.

End Scenarios.

(** * Properties *)

(** ** Strings and paths *)

Lemma append_cons (x : ascii) (a b : string) :
  String x a +:+ b = String x (a +:+ b).
Proof. reflexivity. Qed.

Lemma append_assoc (a b c : string) : (a +:+ b) +:+ c = a +:+ (b +:+ c).
Proof.
  induction a as [|x a IH]; [reflexivity |].
  rewrite !append_cons, IH. reflexivity.
Qed.

Lemma append_nil_r (a : string) : a +:+ "" = a.
Proof.
  induction a as [|x a IH]; [reflexivity |].
  rewrite append_cons, IH. reflexivity.
Qed.


(** ** Error classification *)

Lemma ErrorStatus_true (err : option error) (code : Z) :
  ErrorStatus err code = Returns true <->
  exists e, err = Some (serverError e) /\ StatusCode e = code.
Proof.
  unfold ErrorStatus, assert_Error. split.
  - destruct err as [[e| |msg]|]; simpl; try discriminate.
    intros Heq. exists e. split; [reflexivity |]. injection Heq as Heq. lia.
  - intros (e & -> & <-). simpl. rewrite Z.eqb_refl. reflexivity.
Qed.

Lemma ErrorStatus_foreign (msg : string) (code : Z) :
  ErrorStatus (Some (foreignError msg)) code = Returns false.
Proof. reflexivity. Qed.

Lemma ErrorStatus_nil (code : Z) : ErrorStatus None code = Returns false.
Proof. reflexivity. Qed.

(** Only on a nil pointer does the status of an error fail to be read. *)
Lemma ErrorStatus_returns (err : option error) (code : Z) :
  err <> Some nilError ->
  ErrorStatus err code
  = Returns match err with
            | Some (serverError e) => StatusCode e =? code
            | _ => false
            end.
Proof. destruct err as [[e| |msg]|]; intros Hne; [| contradiction | |]; reflexivity. Qed.

Lemma ErrorStatus_nil_pointer (code : Z) :
  ErrorStatus (Some nilError) code
  = Panics "invalid memory address or nil pointer dereference".
Proof. reflexivity. Qed.

(** C6: on every error value but a nil pointer of type [*Error] held in an
    error, NotFound, Unauthorized and Conflict return, and return true
    exactly on a server error with status 404, 401 and 409; on an error of
    any other type, such as a transport failure, and on nil they return
    false. *)
Theorem status_predicates (err : option error) :
  err <> Some nilError ->
  (NotFound err = Returns true <->
     exists e, err = Some (serverError e) /\ StatusCode e = 404) /\
  (Unauthorized err = Returns true <->
     exists e, err = Some (serverError e) /\ StatusCode e = 401) /\
  (Conflict err = Returns true <->
     exists e, err = Some (serverError e) /\ StatusCode e = 409) /\
  (exists nf un co,
     NotFound err = Returns nf /\ Unauthorized err = Returns un /\
     Conflict err = Returns co) /\
  ((err = None \/ exists msg, err = Some (foreignError msg)) ->
     NotFound err = Returns false /\
     Unauthorized err = Returns false /\
     Conflict err = Returns false) /\
  (forall e, err = Some (serverError e) ->
     NotFound err = Returns (StatusCode e =? 404) /\
     Unauthorized err = Returns (StatusCode e =? 401) /\
     Conflict err = Returns (StatusCode e =? 409)).
Proof.
  intros Hne.
  split; [apply ErrorStatus_true |].
  split; [apply ErrorStatus_true |].
  split; [apply ErrorStatus_true |].
  unfold NotFound, Unauthorized, Conflict.
  rewrite !(ErrorStatus_returns err _ Hne).
  split; [do 3 eexists; repeat split |]. split.
  - intros [-> | [msg ->]]; auto.
  - intros e ->. auto.
Qed.

(** ** The revision of a response *)

Lemma responseRev_error (resp : option Response) (err : error) :
  responseRev (resp, Some err) = Returns ("", Some err).
Proof. reflexivity. Qed.

Lemma responseRev_missing (resp : Response) :
  Header_Get (resp_Header resp) "Etag" = "" ->
  responseRev (Some resp, None)
  = Returns ("", Some (foreignError "couchdb: missing Etag header in response")).
Proof. intros Hget. unfold responseRev. rewrite Hget. reflexivity. Qed.

Lemma string_length_zero (s : string) : String.length s = 0%nat -> s = "".
Proof. destruct s; [reflexivity | discriminate]. Qed.

Lemma eqb_empty_false (s : string) :
  (0 < String.length s)%nat -> String.eqb s "" = false.
Proof. destruct s; simpl; [lia | reflexivity]. Qed.

(** With two bytes or more the first and the last are dropped. *)
Lemma responseRev_strips (resp : Response) (etag : string) :
  Header_Get (resp_Header resp) "Etag" = etag ->
  (2 <= String.length etag)%nat ->
  responseRev (Some resp, None)
  = Returns (substring 1 (String.length etag - 2) etag, None).
Proof.
  intros Hget Hlen. unfold responseRev. rewrite Hget.
  rewrite eqb_empty_false by lia. unfold slice.
  replace (_ && _ && _) with true.
  - simpl. do 3 f_equal. lia.
  - symmetry. rewrite !andb_true_iff. repeat split; lia.
Qed.

(** A header of one byte makes the slice expression panic. *)
Lemma responseRev_one_byte (resp : Response) (etag : string) :
  Header_Get (resp_Header resp) "Etag" = etag ->
  String.length etag = 1%nat ->
  responseRev (Some resp, None) = Panics "slice bounds out of range".
Proof.
  intros Hget Hlen. unfold responseRev. rewrite Hget.
  rewrite eqb_empty_false by lia. unfold slice. rewrite Hlen. reflexivity.
Qed.

Lemma substring_prefix (a b : string) :
  substring 0 (String.length a) (a +:+ b) = a.
Proof.
  induction a as [|x a IH]; [destruct b; reflexivity |].
  rewrite append_cons. simpl. rewrite IH. reflexivity.
Qed.

Lemma length_append (a b : string) :
  String.length (a +:+ b) = (String.length a + String.length b)%nat.
Proof.
  induction a as [|x a IH]; [reflexivity |].
  rewrite append_cons. simpl. rewrite IH. reflexivity.
Qed.

Lemma responseRev_between (resp : Response) (rev : string) (a b : ascii) :
  Header_Get (resp_Header resp) "Etag" = String a (rev +:+ String b "") ->
  responseRev (Some resp, None) = Returns (rev, None).
Proof.
  intros Hget.
  rewrite (responseRev_strips resp _ Hget).
  - simpl. rewrite length_append. simpl.
    replace (String.length rev + 1 - 1)%nat with (String.length rev) by lia.
    rewrite substring_prefix. reflexivity.
  - simpl. rewrite length_append. simpl. lia.
Qed.

(** C10: on a response whose Etag header is the single byte [W], the
    slice [etag[1 : len(etag)-1]] is [etag[1:0]] and responseRev panics
    instead of returning. *)
Theorem responseRev_panics_on_short_etag :
  responseRev
    (Some (TestRuntime.respond 201 {["Etag" := ["W"]]} ""
             {| req_Method := "PUT"; req_URL := "http://testClient:5984/db/doc";
                req_Header := ∅; req_Body := Some "{}"; req_Context := Background |}),
     None)
  = Panics "slice bounds out of range".
Proof. apply responseRev_one_byte with (etag := "W"); reflexivity. Qed.

(** ** The transport *)

Ltac run_M :=
  unfold mbind, M_bind, mret, M_ret, liftM, panicM, log, Close, ReadAll, Do in *;
  simpl in *.

Section TransportProperties.
Context `{Runtime}.

Lemma readBody_run {T} `{JSONUnmarshal T} (resp : Response) (v : T) (s : State) :
  exists r, readBody resp v s
            = (Returns r, after s (world s) [BodyRead resp; BodyClosed resp]).
Proof.
  unfold readBody, after. run_M.
  rewrite <- app_assoc. simpl.
  destruct (body_err (resp_Body resp)); simpl.
  - eexists. reflexivity.
  - destruct (json_Unmarshal _ v). eexists. reflexivity.
Qed.


Lemma parseError_run (resp : Response) (s : State) :
  exists rep evs,
    parseError resp s
    = (Returns (serverError {| Method := req_Method (resp_Request resp);
                               URL := req_URL (resp_Request resp);
                               StatusCode := resp_StatusCode resp;
                               ErrorCode := reply_Error rep;
                               Reason := reply_Reason rep |}),
       after s (world s) evs)
    /\ Forall (is_body_event resp) evs.
Proof.
  unfold parseError.
  destruct (String.eqb (req_Method (resp_Request resp)) "HEAD") eqn:Hhead; simpl.
  - exists {| reply_Error := ""; reply_Reason := "" |}, []. run_M.
    unfold after. rewrite app_nil_r. destruct s. split; [reflexivity | constructor].
  - destruct (readBody_run resp {| reply_Error := ""; reply_Reason := "" |} s)
      as [[rep err] Hrun].
    unfold mbind at 1, M_bind at 1. unfold mbind at 1, M_bind at 1.
    rewrite Hrun.
    assert (Hev : Forall (is_body_event resp) [BodyRead resp; BodyClosed resp])
      by (repeat constructor; unfold is_body_event; auto).
    destruct err as [err|]; run_M.
    + exists {| reply_Error := unknown_marker err; reply_Reason := unknown_marker err |}.
      eexists. split; [reflexivity | exact Hev].
    + exists rep. eexists. split; [reflexivity | exact Hev].
Qed.

(** C7: the error built from a failed response carries the method and URL of
    the response's request and its status code.  For a HEAD request both
    fields are empty and the state, with its record of bodies read, is as
    before.  For any other method the body is read and closed; when the
    read fails, or json.Unmarshal rejects what was read, both fields are
    the text [unknown, couldn't decode CouchDB error: ] followed by the text
    of that failure; when the body decodes, they are the decoded fields. *)
Theorem parseError_fields (resp : Response) (s : State) :
  exists e s',
    parseError resp s = (Returns (serverError e), s') /\
    Method e = req_Method (resp_Request resp) /\
    URL e = req_URL (resp_Request resp) /\
    StatusCode e = resp_StatusCode resp /\
    (req_Method (resp_Request resp) = "HEAD" ->
       ErrorCode e = "" /\ Reason e = "" /\ s' = s) /\
    (req_Method (resp_Request resp) <> "HEAD" ->
       s' = after s (world s) [BodyRead resp; BodyClosed resp] /\
       (forall msg,
          body_err (resp_Body resp) = Some msg \/
          (body_err (resp_Body resp) = None /\
           (json_Unmarshal (body_bytes (resp_Body resp))
              {| reply_Error := ""; reply_Reason := "" |}).2 = Some msg) ->
          ErrorCode e = "unknown, couldn't decode CouchDB error: " +:+ msg /\
          Reason e = "unknown, couldn't decode CouchDB error: " +:+ msg) /\
       (forall rep,
          body_err (resp_Body resp) = None ->
          json_Unmarshal (body_bytes (resp_Body resp))
            {| reply_Error := ""; reply_Reason := "" |} = (rep, None) ->
          ErrorCode e = reply_Error rep /\ Reason e = reply_Reason rep)).
Proof.
  unfold parseError.
  destruct (String.eqb (req_Method (resp_Request resp)) "HEAD") eqn:Hhead; simpl.
  - run_M. eexists; eexists. split; [reflexivity |]. simpl.
    split; [reflexivity |]. split; [reflexivity |]. split; [reflexivity |].
    split.
    + intros _. auto.
    + intros Hne. apply String.eqb_eq in Hhead. contradiction.
  - assert (Hne : req_Method (resp_Request resp) = "HEAD" -> False).
    { intros Heq. rewrite Heq in Hhead. discriminate. }
    unfold readBody. run_M. unfold after. rewrite <- app_assoc. simpl.
    destruct (body_err (resp_Body resp)) as [msg0|] eqn:Hread; simpl.
    + eexists; eexists. split; [reflexivity |]. simpl.
      split; [reflexivity |]. split; [reflexivity |]. split; [reflexivity |].
      split; [intros Heq; destruct (Hne Heq) |]. intros _.
      split; [reflexivity |]. split.
      * intros msg [Hmsg | [Hnone _]]; [| discriminate].
        injection Hmsg as <-. auto.
      * intros rep Hnone. discriminate.
    + destruct (json_Unmarshal (body_bytes (resp_Body resp))
                  {| reply_Error := ""; reply_Reason := "" |})
        as [rep0 [msg0|]] eqn:Hdec; simpl;
        eexists; eexists; (split; [reflexivity |]); simpl;
        (split; [reflexivity |]); (split; [reflexivity |]); (split; [reflexivity |]);
        (split; [intros Heq; destruct (Hne Heq) |]); intros _;
        (split; [reflexivity |]); split.
      * intros msg [Hmsg | [_ Hmsg]]; [discriminate |].
        injection Hmsg as <-. auto.
      * intros rep _ Heq. discriminate.
      * intros msg [Hmsg | [_ Hmsg]]; discriminate.
      * intros rep _ Heq. injection Heq as <-. auto.
Qed.

Lemma after_after (s : State) (w w' : World) (evs evs' : list Event) :
  after (after s w evs) w' evs' = after s w' (evs ++ evs').
Proof. unfold after. simpl. rewrite app_assoc. reflexivity. Qed.

Section Request.
Variables (t : transport) (ctx : Context) (method path : string)
  (body : option string) (s : State).

(** A nil context makes [WithContext] panic before anything is sent. *)
Lemma request_not_started (msg : string) :
  newRequest t ctx method path body = Panics msg ->
  request t ctx method path body s = (Panics msg, s).
Proof. intros Hnew. unfold request. rewrite Hnew. reflexivity. Qed.

Lemma request_built (req : Request) :
  newRequest t ctx method path body = Returns (Some req, None) ->
  request t ctx method path body s
  = (r ← Do t (json_content_type method req);
     match r with
     | inr msg => mret (None, Some (foreignError msg))
     | inl resp =>
       if 400 <=? resp_StatusCode resp then
         err ← parseError resp; mret (None, Some err)
       else mret (Some resp, None)
     end) s.
Proof. intros Hnew. unfold request. rewrite Hnew. reflexivity. Qed.

Lemma request_not_built (err : error) :
  newRequest t ctx method path body = Returns (None, Some err) ->
  request t ctx method path body s = (Returns (None, Some err), s).
Proof. intros Hnew. unfold request. rewrite Hnew. reflexivity. Qed.

Lemma request_transport_failure (req : Request) (msg : string) (w' : World) :
  newRequest t ctx method path body = Returns (Some req, None) ->
  http t (json_content_type method req) (world s) = (inr msg, w') ->
  request t ctx method path body s
  = (Returns (None, Some (foreignError msg)),
     after s w' [Sent (json_content_type method req)]).
Proof.
  intros Hnew Hdo. unfold request. rewrite Hnew. run_M. rewrite Hdo. reflexivity.
Qed.

Lemma request_success (req : Request) (resp : Response) (w' : World) :
  newRequest t ctx method path body = Returns (Some req, None) ->
  http t (json_content_type method req) (world s) = (inl resp, w') ->
  resp_StatusCode resp < 400 ->
  request t ctx method path body s
  = (Returns (Some resp, None), after s w' [Sent (json_content_type method req)]).
Proof.
  intros Hnew Hdo Hlt. unfold request. rewrite Hnew. run_M. rewrite Hdo.
  destruct (400 <=? resp_StatusCode resp) eqn:Hle; [lia | reflexivity].
Qed.

Lemma request_failure (req : Request) (resp : Response) (w' : World) :
  newRequest t ctx method path body = Returns (Some req, None) ->
  http t (json_content_type method req) (world s) = (inl resp, w') ->
  400 <= resp_StatusCode resp ->
  exists e evs,
    request t ctx method path body s
    = (Returns (None, Some (serverError e)),
       after s w' (Sent (json_content_type method req) :: evs)) /\
    Method e = req_Method (resp_Request resp) /\
    URL e = req_URL (resp_Request resp) /\
    StatusCode e = resp_StatusCode resp /\
    Forall (is_body_event resp) evs.
Proof.
  intros Hnew Hdo Hge. rewrite (request_built req Hnew).
  unfold mbind at 1, M_bind at 1. unfold Do. rewrite Hdo.
  destruct (400 <=? resp_StatusCode resp) eqn:Hle; [| lia].
  unfold mbind, M_bind.
  match goal with |- context [parseError resp ?st] =>
    destruct (parseError_run resp st) as (rep & evs & Hrun & Hev) end.
  rewrite Hrun.
  eexists; exists evs. split.
  - unfold mret, M_ret, after. simpl. rewrite <- app_assoc. reflexivity.
  - simpl. auto.
Qed.

(** C1: once the client has answered the request with a response, a status
    of 400 or more makes [request] return no response and a server error
    with that status, and a status below 400 makes it return the response
    and no error. *)
Theorem request_classifies_status (req : Request) (resp : Response) (w' : World) :
  newRequest t ctx method path body = Returns (Some req, None) ->
  http t (json_content_type method req) (world s) = (inl resp, w') ->
  (400 <= resp_StatusCode resp ->
     exists e s',
       request t ctx method path body s
       = (Returns (None, Some (serverError e)), s') /\
       StatusCode e = resp_StatusCode resp) /\
  (resp_StatusCode resp < 400 ->
     exists s',
       request t ctx method path body s = (Returns (Some resp, None), s')).
Proof.
  intros Hnew Hdo. split.
  - intros Hge.
    destruct (request_failure req resp w' Hnew Hdo Hge) as (e & evs & Hrun & _ & _ & Hst & _).
    eauto.
  - intros Hlt. eexists. apply (request_success req resp w' Hnew Hdo Hlt).
Qed.

End Request.

End TransportProperties.


(** ** What a call sends *)

Section Traces.
Context `{Runtime}.

Lemma PUTs_app (tr evs : list Event) : PUTs (tr ++ evs) = PUTs tr ++ PUTs evs.
Proof. unfold PUTs. apply List.filter_app. Qed.

Lemma PUTs_body_events (resp : Response) (evs : list Event) :
  Forall (is_body_event resp) evs -> PUTs evs = [].
Proof.
  induction 1 as [|e evs He _ IH]; [reflexivity |].
  unfold PUTs in *. simpl. destruct He as [-> | ->]; simpl; exact IH.
Qed.

(** The ways newRequest ends: the error of http.NewRequest, a request, or
    the panic of WithContext on a nil context. *)
Lemma newRequest_cases (t : transport) (ctx : Context) (method path : string)
    (body : option string) :
  (exists msg,
     NewRequest_check method (prefix t +:+ path) = Some msg /\
     newRequest t ctx method path body = Returns (None, Some (foreignError msg))) \/
  (exists req,
     newRequest t ctx method path body = Returns (Some req, None) /\
     req_Method req = (if String.eqb method "" then "GET" else method) /\
     req_URL req = prefix t +:+ path /\
     req_Body req = body) \/
  (ctx = nilContext /\
   NewRequest_check method (prefix t +:+ path) = None /\
   newRequest t ctx method path body = Panics "nil context").
Proof.
  unfold newRequest, http_NewRequest.
  destruct (NewRequest_check method (prefix t +:+ path)) as [msg|].
  - left. eauto.
  - right. destruct ctx as [| |n].
    + right. destruct (decide (nilContext <> Background)) as [_ | Hn]; [auto |].
      exfalso. apply Hn. discriminate.
    + left. destruct (decide (Background <> Background)) as [Hn | _];
        [contradiction |].
      eexists. split; [reflexivity |]. destruct (auth t); simpl; auto.
    + left. destruct (decide (Derived n <> Background)) as [_ | Hn].
      * eexists. split; [reflexivity |]. destruct (auth t); simpl; auto.
      * exfalso. apply Hn. discriminate.
Qed.

Lemma newRequest_fields (t : transport) (ctx : Context) (method path : string)
    (body : option string) (req : Request) :
  newRequest t ctx method path body = Returns (Some req, None) ->
  req_Method req = (if String.eqb method "" then "GET" else method) /\
  req_URL req = prefix t +:+ path /\
  req_Body req = body.
Proof.
  intros Hnew.
  destruct (newRequest_cases t ctx method path body)
    as [(msg & _ & Hn) | [(req' & Hn & Hfields) | (_ & _ & Hn)]]; try congruence.
Qed.

Lemma newRequest_built (t : transport) (ctx : Context) (method path : string)
    (body : option string) :
  ctx <> nilContext ->
  NewRequest_check method (prefix t +:+ path) = None ->
  exists req, newRequest t ctx method path body = Returns (Some req, None).
Proof.
  intros Hctx Hcheck.
  destruct (newRequest_cases t ctx method path body)
    as [(msg & Hn & _) | [(req & Hn & _) | (Hnil & _)]];
    [congruence | eauto | contradiction].
Qed.

Lemma json_content_type_keeps (method : string) (req : Request) :
  req_Method (json_content_type method req) = req_Method req /\
  req_URL (json_content_type method req) = req_URL req /\
  req_Body (json_content_type method req) = req_Body req.
Proof. unfold json_content_type. destruct (negb _); simpl; auto. Qed.

(** A request that was built is handed to the client exactly once, and
    what follows are reads of the response's body. *)
Lemma request_sends (t : transport) (ctx : Context) (method path : string)
    (body : option string) (s s' : State) (req : Request)
    (o : outcome (option Response * option error)) :
  newRequest t ctx method path body = Returns (Some req, None) ->
  request t ctx method path body s = (o, s') ->
  exists evs,
    trace s' = trace s ++ Sent (json_content_type method req) :: evs /\
    PUTs evs = [].
Proof.
  intros Hnew Hrun.
  destruct (http t (json_content_type method req) (world s)) as [[resp|msg] w'] eqn:Hdo.
  - destruct (Z_lt_ge_dec (resp_StatusCode resp) 400) as [Hlt | Hge].
    + rewrite (request_success t ctx method path body s req resp w' Hnew Hdo Hlt) in Hrun.
      injection Hrun as _ <-. exists []. auto.
    + destruct (request_failure t ctx method path body s req resp w' Hnew Hdo)
        as (e & evs & Hrun' & _ & _ & _ & Hev); [lia |].
      rewrite Hrun' in Hrun. injection Hrun as _ <-.
      exists evs. split; [reflexivity | eapply PUTs_body_events; eauto].
  - rewrite (request_transport_failure t ctx method path body s req msg w' Hnew Hdo) in Hrun.
    injection Hrun as _ <-. exists []. auto.
Qed.


Lemma closedRequest_not_built (t : transport) (ctx : Context) (method path : string)
    (body : option string) (s : State) (err : error) :
  newRequest t ctx method path body = Returns (None, Some err) ->
  closedRequest t ctx method path body s = (Returns (None, Some err), s).
Proof.
  intros Hnew. unfold closedRequest. unfold mbind at 1, M_bind at 1.
  rewrite (request_not_built _ _ _ _ _ _ _ Hnew). reflexivity.
Qed.

End Traces.

(** ** Databases *)

Section DatabaseProperties.
Context `{Runtime}.

Lemma closedRequest_success (t : transport) (ctx : Context) (method path : string)
    (body : option string) (s : State) (req : Request) (resp : Response) (w' : World) :
  newRequest t ctx method path body = Returns (Some req, None) ->
  http t (json_content_type method req) (world s) = (inl resp, w') ->
  resp_StatusCode resp < 400 ->
  closedRequest t ctx method path body s
  = (Returns (Some resp, None),
     after s w' [Sent (json_content_type method req); BodyRead resp; BodyClosed resp]).
Proof.
  intros Hnew Hdo Hlt. unfold closedRequest. unfold mbind at 1, M_bind at 1.
  rewrite (request_success _ _ _ _ _ _ _ _ _ Hnew Hdo Hlt). run_M.
  unfold after. simpl. rewrite <- !app_assoc. reflexivity.
Qed.


(** *** Get with no options *)

Section GetProperties.
Context {T : Type} `{JSONUnmarshal T}.
Variables (db : ContextAwareDB) (ctx : Context) (id : string) (doc : T).

Lemma Get_request (s : State) :
  Get db ctx id doc [] s
  = ('(resp, err) ← request (db_transport db) ctx "GET" (path [name db; id]) None;
     match err with
     | Some _ => mret (doc, err)
     | None =>
       match resp with
       | None => panicM "invalid memory address or nil pointer dereference"
       | Some resp => readBody resp doc
       end
     end) s.
Proof. reflexivity. Qed.

(** Get sends no PUT. *)
Lemma Get_no_PUT (s s1 : State) (o : outcome (T * option error)) :
  Get db ctx id doc [] s = (o, s1) -> PUTs (trace s1) = PUTs (trace s).
Proof.
  rewrite Get_request. unfold mbind at 1, M_bind at 1.
  destruct (newRequest_cases (db_transport db) ctx "GET" (path [name db; id]) None)
    as [(msg0 & _ & Hnew) | [(req & Hnew & Hm & _) | (_ & _ & Hnew)]].
  - rewrite (request_not_built _ _ _ _ _ _ _ Hnew). run_M.
    intros Hrun. injection Hrun as _ <-. reflexivity.
  - destruct (request (db_transport db) ctx "GET" (path [name db; id]) None s)
      as [[[resp err]|msg] s0] eqn:Hreq;
      destruct (request_sends _ _ _ _ _ _ _ _ _ Hnew Hreq) as (evs & Htr & Hq).
    + assert (Hs0 : PUTs (trace s0) = PUTs (trace s)).
      { rewrite Htr, PUTs_app. unfold PUTs at 2. simpl.
        destruct (json_content_type_keeps "GET" req) as (-> & _).
        rewrite Hm. simpl. fold (PUTs evs). rewrite Hq. apply app_nil_r. }
      destruct err as [err|]; [| destruct resp as [resp|]].
      * run_M. intros Hrun. injection Hrun as _ <-. exact Hs0.
      * destruct (readBody_run resp doc s0) as [r Hr]. rewrite Hr.
        intros Hrun. injection Hrun as _ <-. unfold after. simpl.
        rewrite PUTs_app. simpl. rewrite Hs0. apply app_nil_r.
      * run_M. intros Hrun. injection Hrun as _ <-. exact Hs0.
    + intros Hrun. injection Hrun as _ <-.
      rewrite Htr, PUTs_app. unfold PUTs at 2. simpl.
      destruct (json_content_type_keeps "GET" req) as (-> & _).
      rewrite Hm. simpl. fold (PUTs evs). rewrite Hq. apply app_nil_r.
  - rewrite (request_not_started _ _ _ _ _ _ _ Hnew).
    intros Hrun. injection Hrun as _ <-. reflexivity.
Qed.


End GetProperties.

(** *** Put *)

Lemma Put_marshalled {T} `{JSONMarshal T} (db : ContextAwareDB) (ctx : Context)
    (id : string) (doc : T) (rev json : string) (s : State) :
  json_Marshal doc = inl json ->
  Put db ctx id doc rev s
  = (r ← closedRequest (db_transport db) ctx "PUT" (revpath rev [name db; id])
           (Some json);
     liftM (responseRev r)) s.
Proof. intros Hm. unfold Put. rewrite Hm. reflexivity. Qed.

(** *** SyncDesign *)

Section SyncDesignProperties.
Variables (db : ContextAwareDB) (ctx : Context) (d : Design) (s : State).

(** The branches of SyncDesign after the fetch. *)
Lemma SyncDesign_after_Get (prev : Design) (err : option error) (s1 : State) :
  Get db ctx (ID d) Design_zero [] s = (Returns (prev, err), s1) ->
  SyncDesign db ctx d s
  = match (match err with Some _ => NotFound err | None => Returns true end) with
    | Panics msg => (Panics msg, s1)
    | Returns false => (Returns (d, err), s1)
    | Returns true =>
      if negb (String.eqb (Rev prev) "")
         && String.eqb (ViewChecksum d) (ViewChecksum prev) then
        (Returns (set_Rev d (Rev prev), None), s1)
      else
        match Put db ctx (ID d) (set_Rev d "") (Rev prev) s1 with
        | (Returns (rev, Some e), s2) => (Returns (set_Rev d "", Some e), s2)
        | (Returns (rev, None), s2) => (Returns (set_Rev d rev, None), s2)
        | (Panics msg, s2) => (Panics msg, s2)
        end
    end.
Proof.
  intros Hget. unfold SyncDesign. unfold mbind at 1, M_bind at 1. rewrite Hget.
  assert (Hrest : forall st : State,
            (if negb (String.eqb (Rev prev) "")
                && String.eqb (ViewChecksum d) (ViewChecksum prev)
             then mret (set_Rev d (Rev prev), None)
             else
               let d0 := set_Rev d "" in
               '(rev, err0) ← Put db ctx (ID d0) d0 (Rev prev);
               match err0 with
               | Some _ => mret (d0, err0)
               | None => mret (set_Rev d0 rev, None)
               end) st
            = if negb (String.eqb (Rev prev) "")
                 && String.eqb (ViewChecksum d) (ViewChecksum prev) then
                (Returns (set_Rev d (Rev prev), None), st)
              else
                match Put db ctx (ID d) (set_Rev d "") (Rev prev) st with
                | (Returns (rev, Some e), s2) => (Returns (set_Rev d "", Some e), s2)
                | (Returns (rev, None), s2) => (Returns (set_Rev d rev, None), s2)
                | (Panics msg, s2) => (Panics msg, s2)
                end).
  { intros st.
    destruct (negb (String.eqb (Rev prev) "")
              && String.eqb (ViewChecksum d) (ViewChecksum prev)); [reflexivity |].
    simpl. unfold mbind, M_bind.
    destruct (Put db ctx (ID d) (set_Rev d "") (Rev prev) st) as [[[rev [e|]]|msg] s2];
      reflexivity. }
  destruct err as [e|].
  - destruct (NotFound (Some e)) as [[|]|msg] eqn:Hnf;
      unfold mbind at 1, M_bind at 1; unfold mbind at 1, M_bind at 1;
      unfold liftM; try unfold mret at 1, M_ret at 1; cbn beta iota delta [negb];
      [apply Hrest | reflexivity | reflexivity].
  - unfold mbind at 1, M_bind at 1. unfold mret at 1, M_ret at 1. apply Hrest.
Qed.

(** C2: when the fetch returns a remote design with a revision and the
    checksum of the local design, SyncDesign sends no PUT, returns no
    error, and leaves the local design with the remote revision. *)
Theorem SyncDesign_unchanged (remote : Design) (s1 : State) :
  Get db ctx (ID d) Design_zero [] s = (Returns (remote, None), s1) ->
  Rev remote <> "" ->
  ViewChecksum remote = ViewChecksum d ->
  SyncDesign db ctx d s = (Returns (set_Rev d (Rev remote), None), s1) /\
  Rev (set_Rev d (Rev remote)) = Rev remote /\
  PUTs (trace s1) = PUTs (trace s).
Proof.
  intros Hget Hrev Hsum. split; [| split; [reflexivity | exact (Get_no_PUT _ _ _ _ _ _ _ Hget)]].
  rewrite (SyncDesign_after_Get _ _ _ Hget). rewrite Hsum.
  rewrite String.eqb_refl.
  destruct (String.eqb (Rev remote) "") eqn:Heq; [| reflexivity].
  apply String.eqb_eq in Heq. contradiction.
Qed.



(** C8: when the fetch fails with an error that is not not-found,
    SyncDesign returns that error and the local design as it was; when the
    fetch leads to the PUT and the PUT returns an error, SyncDesign returns
    that error and the local design with an empty revision. *)
Theorem SyncDesign_failures (prev : Design) (err : option error) (s1 : State) :
  Get db ctx (ID d) Design_zero [] s = (Returns (prev, err), s1) ->
  (forall e,
     err = Some e -> NotFound err = Returns false ->
     SyncDesign db ctx d s = (Returns (d, Some e), s1)) /\
  (forall rev e s2,
     err = None \/ NotFound err = Returns true ->
     negb (String.eqb (Rev prev) "")
       && String.eqb (ViewChecksum d) (ViewChecksum prev) = false ->
     Put db ctx (ID d) (set_Rev d "") (Rev prev) s1 = (Returns (rev, Some e), s2) ->
     SyncDesign db ctx d s = (Returns (set_Rev d "", Some e), s2) /\
     Rev (set_Rev d "") = "").
Proof.
  intros Hget. rewrite (SyncDesign_after_Get _ _ _ Hget). split.
  - intros e -> Hnf. rewrite Hnf. reflexivity.
  - intros rev e s2 Hcase Hbranch Hput. split; [| reflexivity].
    rewrite Hbranch, Hput.
    destruct Hcase as [-> | Hnf]; [reflexivity |].
    destruct err; [rewrite Hnf |]; reflexivity.
Qed.

End SyncDesignProperties.

End DatabaseProperties.

(** ** Query options *)

Lemma string_forall_app (P : ascii -> bool) (a b : string) :
  string_forall P (a +:+ b) = string_forall P a && string_forall P b.
Proof.
  induction a as [|x a IH]; [reflexivity |].
  rewrite append_cons. simpl. rewrite IH. apply andb_assoc.
Qed.

Lemma escape_byte_safe (c : ascii) :
  string_forall query_value_char (escape_byte c) = true.
Proof. destruct c as [[] [] [] [] [] [] [] []]; vm_compute; reflexivity. Qed.

(** An escaped text is one query value. *)
Lemma QueryEscape_safe (s : string) :
  string_forall query_value_char (QueryEscape s) = true.
Proof.
  induction s as [|c s IH]; [reflexivity |].
  simpl. rewrite string_forall_app, escape_byte_safe, IH. reflexivity.
Qed.

Section EncodingProperties.
Context `{Runtime}.

Ltac run_outcome := unfold mbind, outcome_bind, obind in *; simpl in *.

(** The accessor of each case of encval is the one of the kind matched. *)
Lemma encval_returns (w k : string) (v : value) :
  exists w' err, encval w k v = Returns (w', err).
Proof.
  destruct v as [|b|wd i|wd u|u|f|f|str|ty l|ok ty c];
    try destruct wd; try destruct ok; run_outcome; eauto.
Qed.

Lemma encval_appends (w k : string) (v : value) (w' : string) :
  encval w k v = Returns (w', None) -> exists str, w' = w +:+ str.
Proof.
  destruct v as [|b|wd i|wd u|u|f|f|str|ty l|ok ty c];
    try destruct wd; try destruct ok; run_outcome;
    intros Heq; inversion Heq; eauto.
Qed.

Lemma encval_unsupported (w k : string) (v : value) :
  scalar v = false -> exists err, encval w k v = Returns (w, Some err).
Proof.
  destruct v as [|b|wd i|wd u|u|f|f|str|ty l|ok ty c]; try discriminate;
    intros _; try destruct ok; run_outcome; eauto.
Qed.

(** encopts returns on every input. *)
Lemma encopts_loop_returns (jskeys : list string) (opts : Options) :
  forall buf amp, exists r, encopts_loop opts jskeys buf amp = Returns r.
Proof.
  induction opts as [|[k v] opts IH]; intros buf amp; simpl; [eauto |].
  destruct (isjson k jskeys).
  - destruct (json_Marshal v); [apply IH | eauto].
  - match goal with |- context [encval ?b k v] =>
      destruct (encval_returns b k v) as (w' & err & ->) end.
    run_outcome. destruct err; [eauto | apply IH].
Qed.

Lemma encopts_never_panics (opts : Options) (jskeys : list string) :
  panics (encopts opts jskeys) = false.
Proof.
  unfold encopts.
  destruct (encopts_loop_returns jskeys opts "?" false) as [r ->]. reflexivity.
Qed.

Lemma encopts_loop_rejects (jskeys : list string) (k : string) (v : value)
    (opts : Options) :
  In (k, v) opts -> isjson k jskeys = false -> scalar v = false ->
  forall buf amp, exists err,
    encopts_loop opts jskeys buf amp = Returns ("", Some err).
Proof.
  intros Hin Hkey Hv.
  induction opts as [|[k' v'] opts IH]; intros buf amp; [destruct Hin |].
  simpl. destruct (isjson k' jskeys) eqn:Hjs.
  - destruct (json_Marshal v'); [| eauto].
    destruct Hin as [Heq | Hin]; [| apply IH; exact Hin].
    injection Heq as -> ->. congruence.
  - destruct Hin as [Heq | Hin].
    + injection Heq as -> ->.
      match goal with |- context [encval ?b k v] =>
        destruct (encval_unsupported b k v Hv) as (err & ->) end.
      run_outcome. eauto.
    + match goal with |- context [encval ?b k' v'] =>
        destruct (encval_returns b k' v') as (w' & err & ->) end.
      run_outcome. destruct err; [eauto | apply IH; exact Hin].
Qed.

Lemma ranges_In (m : gmap string value) (opts : Options) (k : string) (v : value) :
  ranges m opts -> m !! k = Some v -> In (k, v) opts.
Proof.
  intros Hr Hl. apply list_elem_of_In. unfold ranges in Hr. rewrite Hr.
  apply elem_of_map_to_list. exact Hl.
Qed.

(** C4, for keys outside the JSON keys: when a key that is not a JSON key
    maps to nil or to a value that is no string, bool, integer or float,
    encopts returns an error (and so does not panic), in whatever order the
    map is ranged over. *)
Theorem encopts_rejects_unsupported (m : gmap string value) (opts : Options)
    (jskeys : list string) (k : string) (v : value) :
  ranges m opts ->
  m !! k = Some v ->
  isjson k jskeys = false ->
  scalar v = false ->
  exists err, encopts opts jskeys = Returns ("", Some err).
Proof.
  intros Hr Hl Hkey Hv. unfold encopts.
  apply (encopts_loop_rejects jskeys k v); auto.
  eapply ranges_In; eauto.
Qed.

(** After the first entry, what the loop adds to the buffer starts with [&]. *)
Lemma encopts_loop_extends (jskeys : list string) (opts : Options) :
  forall buf s,
    encopts_loop opts jskeys buf true = Returns (s, None) ->
    exists post, s = buf +:+ post /\ (post = "" \/ exists q, post = "&" +:+ q).
Proof.
  induction opts as [|[k v] opts IH]; intros buf s; simpl.
  - intros Heq. injection Heq as <-. exists "". rewrite append_nil_r. auto.
  - destruct (isjson k jskeys).
    + destruct (json_Marshal v) as [j|]; [| discriminate].
      intros Hrun. destruct (IH _ _ Hrun) as (post & -> & _).
      exists ("&" +:+ QueryEscape k +:+ "=" +:+ QueryEscape j +:+ post).
      split; [rewrite !append_assoc; reflexivity | eauto].
    + match goal with |- context [encval ?b k v] =>
        destruct (encval_returns b k v) as (w' & err & Henc) end.
      rewrite Henc. run_outcome. destruct err; [discriminate |].
      destruct (encval_appends _ _ _ _ Henc) as (str & ->).
      intros Hrun. destruct (IH _ _ Hrun) as (post & -> & _).
      exists ("&" +:+ QueryEscape k +:+ "=" +:+ str +:+ post).
      split; [rewrite !append_assoc; reflexivity | eauto].
Qed.

Lemma encopts_loop_json (jskeys : list string) (k : string) (v : value) :
  isjson k jskeys = true ->
  forall opts buf amp s,
    In (k, v) opts ->
    encopts_loop opts jskeys buf amp = Returns (s, None) ->
    exists j pre post,
      json_Marshal v = inl j /\
      s = (buf +:+ pre) +:+ query_pair k j +:+ post /\
      (pre = "" /\ amp = false \/ exists p, pre = p +:+ "&") /\
      (post = "" \/ exists q, post = "&" +:+ q).
Proof.
  intros Hkey. induction opts as [|[k' v'] opts IH]; intros buf amp s Hin;
    [destruct Hin |].
  simpl. destruct (isjson k' jskeys) eqn:Hjs.
  - destruct (json_Marshal v') as [j'|] eqn:Hj; [| discriminate].
    intros Hrun. destruct Hin as [Heq | Hin].
    + injection Heq as -> ->.
      destruct (encopts_loop_extends _ _ _ _ Hrun) as (post & -> & Hpost).
      exists j', (if amp then "&" else ""), post.
      split; [exact Hj |]. split; [| split; [| exact Hpost]].
      * unfold query_pair. destruct amp; rewrite ?append_nil_r, !append_assoc; reflexivity.
      * destruct amp; [right; exists ""; reflexivity | left; auto].
    + destruct (IH _ _ _ Hin Hrun) as (j & pre & post & Hm & -> & Hpre & Hpost).
      destruct Hpre as [[_ Hamp] | [p ->]]; [discriminate |].
      exists j, ((if amp then "&" else "") +:+ QueryEscape k' +:+ "="
                 +:+ QueryEscape j' +:+ p +:+ "&"), post.
      split; [exact Hm |]. split; [| split; [| exact Hpost]].
      * destruct amp; rewrite !append_assoc; reflexivity.
      * right. exists ((if amp then "&" else "") +:+ QueryEscape k' +:+ "="
                       +:+ QueryEscape j' +:+ p).
        rewrite !append_assoc. reflexivity.
  - destruct Hin as [Heq | Hin]; [injection Heq as -> ->; congruence |].
    match goal with |- context [encval ?b k' v'] =>
      destruct (encval_returns b k' v') as (w' & err & Henc) end.
    rewrite Henc. run_outcome. destruct err; [discriminate |].
    destruct (encval_appends _ _ _ _ Henc) as (str & ->).
    intros Hrun.
    destruct (IH _ _ _ Hin Hrun) as (j & pre & post & Hm & -> & Hpre & Hpost).
    destruct Hpre as [[_ Hamp] | [p ->]]; [discriminate |].
    exists j, ((if amp then "&" else "") +:+ QueryEscape k' +:+ "="
               +:+ str +:+ p +:+ "&"), post.
    split; [exact Hm |]. split; [| split; [| exact Hpost]].
    + destruct amp; rewrite !append_assoc; reflexivity.
    + right. exists ((if amp then "&" else "") +:+ QueryEscape k' +:+ "="
                     +:+ str +:+ p).
      rewrite !append_assoc. reflexivity.
Qed.

(** C5: when encopts returns a query string, each key among the JSON keys
    stands in it, after [?] or [&] and up to the end or the next [&], as
    its escaped name, [=], and the escaped JSON text of its value; the
    escaped text is made of unreserved characters, [%] and [+] only, so it
    is one query value. *)
Theorem encopts_json_key (m : gmap string value) (opts : Options)
    (jskeys : list string) (k : string) (v : value) (s : string) :
  ranges m opts ->
  m !! k = Some v ->
  isjson k jskeys = true ->
  encopts opts jskeys = Returns (s, None) ->
  exists j pre post,
    json_Marshal v = inl j /\
    s = pre +:+ query_pair k j +:+ post /\
    (pre = "?" \/ exists p, pre = p +:+ "&") /\
    (post = "" \/ exists q, post = "&" +:+ q) /\
    string_forall query_value_char (QueryEscape j) = true.
Proof.
  intros Hr Hl Hkey Hrun. unfold encopts in Hrun.
  destruct (encopts_loop_json jskeys k v Hkey opts "?" false s
              (ranges_In _ _ _ _ Hr Hl) Hrun)
    as (j & pre & post & Hm & Hs & Hpre & Hpost).
  exists j, ("?" +:+ pre), post.
  split; [exact Hm |]. split; [exact Hs |].
  split; [| split; [exact Hpost | apply QueryEscape_safe]].
  destruct Hpre as [[-> _] | [p ->]]; [left; reflexivity |].
  right. exists ("?" +:+ p). rewrite append_assoc. reflexivity.
Qed.

End EncodingProperties.

(** ** The properties on the examples of the tests *)

Section Witnesses.
Import TestRuntime.
#[local] Existing Instance runtime.

(** [t] with its value, by evaluation. *)
Ltac evaluate t H :=
  let r := eval vm_compute in t in
  assert (H : t = r) by (vm_compute; reflexivity).

(** TestErrorHandling: a server error with status 409 is a conflict, an
    error of another type is not. *)
Lemma status_predicates_witness :
  Conflict (Some (serverError {| Method := "GET"; URL := ""; StatusCode := 409;
                                 ErrorCode := ""; Reason := "" |}))
  = Returns true /\
  Conflict (Some (foreignError "Not an HTTP error")) = Returns false.
Proof.
  split.
  - destruct (status_predicates
                (Some (serverError {| Method := "GET"; URL := ""; StatusCode := 409;
                                      ErrorCode := ""; Reason := "" |})))
      as (_ & _ & Hconflict & _); [discriminate |].
    apply Hconflict. eexists. split; reflexivity.
  - destruct (status_predicates (Some (foreignError "Not an HTTP error")))
      as (_ & _ & _ & _ & Hforeign & _); [discriminate |].
    apply Hforeign. right. eexists. reflexivity.
Defined.

(** A nil pointer of type [*Error] held in an error passes the type
    assertion, and reading its status code panics: the predicates do not
    return false on every input that is no server error. *)
Lemma status_predicates_panic_on_nil_pointer :
  NotFound (Some nilError)
  = Panics "invalid memory address or nil pointer dereference" /\
  Unauthorized (Some nilError)
  = Panics "invalid memory address or nil pointer dereference" /\
  Conflict (Some nilError)
  = Panics "invalid memory address or nil pointer dereference".
Proof. repeat split. Qed.

Lemma encopts_rejects_unsupported_witness :
  exists err, encopts [("limit", VNil)] viewJsonKeys = Returns ("", Some err).
Proof.
  apply (encopts_rejects_unsupported limit_nil [("limit", VNil)] viewJsonKeys
           "limit" VNil).
  - unfold ranges, limit_nil. rewrite map_to_list_singleton. reflexivity.
  - reflexivity.
  - reflexivity.
  - reflexivity.
Defined.

(** A key among the JSON keys is marshalled, nil included: the claim that
    every nil value is an encoding error fails on it. *)
Lemma encopts_json_key_accepts_nil :
  ranges startkey_nil [("startkey", VNil)] /\
  startkey_nil !! "startkey" = Some VNil /\
  scalar VNil = false /\
  encopts [("startkey", VNil)] viewJsonKeys = Returns ("?startkey=null", None).
Proof.
  split; [| split; [| split]]; try reflexivity.
  unfold ranges, startkey_nil. rewrite map_to_list_singleton. reflexivity.
Qed.

Lemma encopts_json_key_witness :
  encopts (map_to_list startkey_ab) viewJsonKeys
  = Returns ("?startkey=%5B%22a%22%2C%22b%22%5D", None) /\
  exists j pre post,
    json_Marshal (VSlice "[]string" [VString "a"; VString "b"]) = inl j /\
    "?startkey=%5B%22a%22%2C%22b%22%5D" = pre +:+ query_pair "startkey" j +:+ post /\
    (pre = "?" \/ exists p, pre = p +:+ "&") /\
    (post = "" \/ exists q, post = "&" +:+ q) /\
    string_forall query_value_char (QueryEscape j) = true.
Proof.
  assert (Hrun : encopts (map_to_list startkey_ab) viewJsonKeys
                 = Returns ("?startkey=%5B%22a%22%2C%22b%22%5D", None))
    by (vm_compute; reflexivity).
  split; [exact Hrun |].
  apply (encopts_json_key startkey_ab (map_to_list startkey_ab) viewJsonKeys
           "startkey" (VSlice "[]string" [VString "a"; VString "b"])).
  - unfold ranges. reflexivity.
  - reflexivity.
  - reflexivity.
  - exact Hrun.
Defined.

Lemma request_classifies_status_witness :
  exists e s',
    request (client missing_doc) Background
      "GET" "/db/doc" None start
    = (Returns (None, Some (serverError e)), s') /\
    StatusCode e = 404.
Proof.
  refine (proj1 (request_classifies_status
            (client missing_doc) Background "GET" "/db/doc" None
            start _ _ tt eq_refl eq_refl) _).
  simpl. lia.
Defined.

Lemma parseError_on_missing_doc :
  exists s',
    parseError (respond 404 ∅ not_found_json
                  {| req_Method := "GET"; req_URL := "http://testClient:5984/db/doc";
                     req_Header := ∅; req_Body := None; req_Context := Background |})
      start
    = (Returns (serverError {| Method := "GET";
                               URL := "http://testClient:5984/db/doc";
                               StatusCode := 404;
                               ErrorCode := "not_found";
                               Reason := "error reason" |}), s').
Proof. eexists. reflexivity. Qed.

(** A failed PUT answered without a body: both fields are the marker text
    with the decoder's error, and the body was read and closed. *)
Lemma parseError_fields_witness :
  exists e s',
    parseError (respond 500 ∅ "" put_doc) start = (Returns (serverError e), s') /\
    Method e = "PUT" /\
    URL e = "http://testClient:5984/db/doc" /\
    StatusCode e = 500 /\
    ErrorCode e = "unknown, couldn't decode CouchDB error: unexpected end of JSON input" /\
    Reason e = "unknown, couldn't decode CouchDB error: unexpected end of JSON input" /\
    trace s' = [BodyRead (respond 500 ∅ "" put_doc); BodyClosed (respond 500 ∅ "" put_doc)].
Proof.
  destruct (parseError_fields (respond 500 ∅ "" put_doc) start)
    as (e & s' & Hrun & Hm & Hu & Hst & _ & Hbody).
  destruct Hbody as (Hs & Hfail & _); [discriminate |].
  destruct (Hfail "unexpected end of JSON input") as [Hc Hr];
    [right; split; reflexivity |].
  exists e, s'.
  split; [exact Hrun |]. split; [exact Hm |]. split; [exact Hu |].
  split; [exact Hst |]. split; [exact Hc |]. split; [exact Hr |].
  rewrite Hs. reflexivity.
Defined.

(** A failed reply without a body: both fields are the marker with the
    decoder's error. *)
Example parseError_undecodable_body :
  exists e s',
    parseError (respond 500 ∅ ""
                  {| req_Method := "PUT"; req_URL := "http://testClient:5984/db/doc";
                     req_Header := ∅; req_Body := None; req_Context := Background |})
      start
    = (Returns (serverError e), s') /\
    StatusCode e = 500 /\
    ErrorCode e = "unknown, couldn't decode CouchDB error: unexpected end of JSON input" /\
    Reason e = ErrorCode e /\
    length (trace s') = 2%nat.
Proof. eexists; eexists. split; [reflexivity | auto]. Qed.

(** A failed HEAD: no field, and nothing read. *)
Example parseError_head :
  parseError (respond 404 ∅ ""
                {| req_Method := "HEAD"; req_URL := "http://testClient:5984/db/doc";
                   req_Header := ∅; req_Body := None; req_Context := Background |})
    start
  = (Returns (serverError {| Method := "HEAD";
                             URL := "http://testClient:5984/db/doc";
                             StatusCode := 404; ErrorCode := ""; Reason := "" |}),
     start).
Proof. reflexivity. Qed.


Lemma SyncDesign_unchanged_witness :
  exists s1,
    SyncDesign (db unchanged_remote) Background local_design start
    = (Returns (set_Rev local_design "1-619db7ba8551c0de3f3a178775509611", None), s1) /\
    Rev (set_Rev local_design "1-619db7ba8551c0de3f3a178775509611")
    = "1-619db7ba8551c0de3f3a178775509611" /\
    PUTs (trace s1) = PUTs (trace start).
Proof.
  evaluate (Get (db unchanged_remote) Background (ID local_design) Design_zero [] start)
    Hget.
  eexists.
  apply (SyncDesign_unchanged (db unchanged_remote) Background local_design start
           remote_same _ Hget).
  - discriminate.
  - vm_compute. reflexivity.
Defined.


Lemma SyncDesign_failures_witness :
  (exists e s1,
     SyncDesign (db failing_remote) Background stale_design start
     = (Returns (stale_design, Some (serverError e)), s1) /\
     StatusCode e = 500) /\
  (exists e s2,
     SyncDesign (db conflicting_remote) Background stale_design start
     = (Returns (set_Rev stale_design "", Some (serverError e)), s2) /\
     StatusCode e = 409).
Proof.
  split.
  - evaluate (Get (db failing_remote) Background (ID stale_design) Design_zero [] start)
      Hget.
    eexists; eexists. split.
    + apply (proj1 (SyncDesign_failures (db failing_remote) Background stale_design
                      start _ _ _ Hget) _ eq_refl eq_refl).
    + reflexivity.
  - evaluate (Get (db conflicting_remote) Background (ID stale_design) Design_zero []
                start)
      Hget.
    match type of Hget with _ = (Returns (?prev, _), ?s1) =>
      evaluate (Put (db conflicting_remote) Background (ID stale_design)
                  (set_Rev stale_design "") (Rev prev) s1) Hput
    end.
    eexists; eexists. split.
    + apply (proj2 (SyncDesign_failures (db conflicting_remote) Background stale_design
                      start _ _ _ Hget) _ _ _ (or_intror eq_refl) eq_refl Hput).
    + reflexivity.
Defined.

(** *** The tests of the package, on the model *)

(** TestSyncDesignUpdate: the PUT carries the fetched revision. *)
Example SyncDesign_update :
  exists s2,
    SyncDesign (db changed_remote) Background local_design start
    = (Returns (set_Rev local_design "2-619db7ba8551c0de3f3a178775509611", None), s2) /\
    req_URL <$> (PUTs (trace s2) ≫= fun e => match e with Sent r => [r] | _ => [] end)
    = ["http://testClient:5984/db/_design%2Ftest?rev=1-619db7ba8551c0de3f3a178775509611"].
Proof. eexists. split; vm_compute; reflexivity. Qed.

(** TestRev on a missing document: the error is not-found, and neither
    unauthorized nor a conflict. *)
Example Rev_missing_doc :
  exists err s',
    db_Rev (db missing_doc) Background "404" start = (Returns ("", err), s') /\
    NotFound err = Returns true /\ Unauthorized err = Returns false /\
    Conflict err = Returns false.
Proof. eexists; eexists. split; [vm_compute; reflexivity | auto]. Qed.


End Witnesses.

(** * Further properties *)

(** ** Paths and query strings *)

Lemma count_byte_app (c : ascii) (a b : string) :
  count_byte c (a +:+ b) = (count_byte c a + count_byte c b)%nat.
Proof.
  induction a as [|x a IH]; [reflexivity |].
  rewrite append_cons. simpl. rewrite IH. lia.
Qed.

Lemma count_byte_absent (P : ascii -> bool) (c : ascii) (s : string) :
  P c = false -> string_forall P s = true -> count_byte c s = 0%nat.
Proof.
  intros Hc. induction s as [|x s IH]; [reflexivity |].
  simpl. intros Hall. apply andb_true_iff in Hall as [Hx Hs].
  destruct (Ascii.eqb x c) eqn:Heq.
  - apply Ascii.eqb_eq in Heq. congruence.
  - simpl. auto.
Qed.

Lemma path_from_app (r : string) (segs : list string) :
  path_from r segs = r +:+ path segs.
Proof.
  unfold path. revert r.
  induction segs as [|seg segs IH]; intros r; simpl.
  - symmetry. apply append_nil_r.
  - rewrite (IH ((r +:+ "/") +:+ QueryEscape seg)).
    rewrite (IH (("" +:+ "/") +:+ QueryEscape seg)).
    rewrite !append_assoc. reflexivity.
Qed.

Lemma path_cons (seg : string) (segs : list string) :
  path (seg :: segs) = "/" +:+ QueryEscape seg +:+ path segs.
Proof.
  unfold path at 1. simpl. rewrite path_from_app, !append_assoc. reflexivity.
Qed.

Lemma path_bytes (segs : list string) : string_forall path_byte (path segs) = true.
Proof.
  induction segs as [|seg segs IH]; [reflexivity |].
  rewrite path_cons, !string_forall_app, IH. simpl.
  rewrite andb_true_r.
  assert (Hq := QueryEscape_safe seg).
  induction (QueryEscape seg) as [|x q IHq]; [reflexivity |].
  simpl in *. apply andb_true_iff in Hq as [Hx Hq].
  unfold path_byte at 1. rewrite Hx, orb_true_r. simpl. auto.
Qed.

(** X1: a path has one [/] per segment: a segment cannot add a separator
    of its own, whatever bytes it holds. *)
Theorem path_one_slash_per_segment (segs : list string) :
  count_byte "/" (path segs) = length segs.
Proof.
  induction segs as [|seg segs IH]; [reflexivity |].
  rewrite path_cons, !count_byte_app, IH.
  rewrite (count_byte_absent query_value_char "/" (QueryEscape seg));
    [reflexivity | reflexivity | apply QueryEscape_safe].
Qed.

(** X2: a path holds no [?]; revpath adds exactly one when a revision is
    given and none for the empty revision; optpath with no options returns
    the path as it is. *)
Theorem query_mark_only_with_query (rev : string) (jskeys segs : list string)
    `{Runtime} :
  count_byte "?" (path segs) = 0%nat /\
  count_byte "?" (revpath rev segs) = (if String.eqb rev "" then 0 else 1)%nat /\
  optpath [] jskeys segs = Returns (path segs, None).
Proof.
  assert (Hp : count_byte "?" (path segs) = 0%nat)
    by (apply (count_byte_absent path_byte); [reflexivity | apply path_bytes]).
  split; [exact Hp |]. split; [| reflexivity].
  unfold revpath. destruct (String.eqb rev ""); simpl; [exact Hp |].
  rewrite !count_byte_app, Hp.
  rewrite (count_byte_absent query_value_char "?" (QueryEscape rev));
    [reflexivity | reflexivity | apply QueryEscape_safe].
Qed.

(** ** Query options *)

Section MoreEncoding.
Context `{Runtime}.

Ltac run_outcome := unfold mbind, outcome_bind, obind in *; simpl in *.

(** encval appends the text of a string, bool, integer or float and
    returns no error; on nil and on every other kind, uintptr among them,
    it returns an error and leaves the buffer as it was. *)
Lemma encval_cases (w k : string) (v : value) :
  encval w k v
  = if encodable v then Returns (w +:+ scalar_text v, None)
    else Returns (w, Some (foreignError
           match v with
           | VNil => "value is nil"
           | VUintptr _ => "unsupported type: uintptr"
           | VSlice ty _ | VOpaque _ ty _ => "unsupported type: " +:+ ty
           | _ => ""
           end)).
Proof.
  destruct v as [|b|wd i|wd u|u|f|f|str|ty l|ok ty c];
    try destruct wd; try destruct ok; reflexivity.
Qed.

Lemma encopts_loop_texts (jskeys : list string) (opts : Options) :
  forall buf amp,
    match mapM (entry_text jskeys) opts with
    | Some ts =>
      encopts_loop opts jskeys buf amp
      = Returns (if amp then buf +:+ prefixed "&" ts else buf +:+ Join ts "&", None)
    | None => exists err, encopts_loop opts jskeys buf amp = Returns ("", Some err)
    end.
Proof.
  induction opts as [|[k v] opts IH]; intros buf amp.
  - simpl. destruct amp; rewrite append_nil_r; reflexivity.
  - change (mapM (entry_text jskeys) ((k, v) :: opts))
      with (y ← entry_text jskeys (k, v);
            ts ← mapM (entry_text jskeys) opts; mret (y :: ts)).
    cbn [encopts_loop].
    destruct (entry_text jskeys (k, v)) as [t|] eqn:He;
      unfold entry_text in He; cbn [fst snd] in He;
      destruct (isjson k jskeys).
    + destruct (json_Marshal v) as [j|msg]; [| discriminate].
      injection He as <-.
      specialize (IH (((if amp then buf +:+ "&" else buf) +:+ QueryEscape k)
                        +:+ "=" +:+ QueryEscape j) true).
      rewrite <- append_assoc in IH.
      destruct (mapM (entry_text jskeys) opts) as [ts|]; simpl.
      * rewrite IH. unfold query_pair, Join.
        destruct amp; simpl; rewrite !append_assoc; reflexivity.
      * exact IH.
    + rewrite encval_cases. destruct (encodable v); [| discriminate].
      injection He as <-.
      specialize (IH (((if amp then buf +:+ "&" else buf) +:+ QueryEscape k)
                        +:+ "=" +:+ scalar_text v) true).
      rewrite <- append_assoc in IH.
      destruct (mapM (entry_text jskeys) opts) as [ts|]; run_outcome.
      * rewrite IH. unfold Join.
        destruct amp; simpl; rewrite !append_assoc; reflexivity.
      * exact IH.
    + destruct (json_Marshal v) as [j|msg]; [discriminate |]. simpl. eauto.
    + rewrite encval_cases. destruct (encodable v); [discriminate |].
      run_outcome. eauto.
Qed.

(** X3: encopts returns a query string exactly when every entry can be
    encoded, and the string is then [?] followed by the entries' texts, in
    the order of the range, joined by [&]; otherwise it returns the empty
    string and an error. *)
Theorem encopts_texts (opts : Options) (jskeys : list string) :
  match mapM (entry_text jskeys) opts with
  | Some ts => encopts opts jskeys = Returns ("?" +:+ Join ts "&", None)
  | None => exists err, encopts opts jskeys = Returns ("", Some err)
  end.
Proof. unfold encopts. apply (encopts_loop_texts jskeys opts "?" false). Qed.

End MoreEncoding.

(** X4: clone returns a map with the entries of the one it ranges over,
    whatever the order of the range. *)
Theorem clone_same_entries (m : gmap string value) (opts : Options) :
  ranges m opts -> clone opts = m.
Proof.
  intros Hr. unfold clone.
  assert (Hfold : forall (l : Options) (acc : gmap string value),
            foldl (fun result kv => <[kv.1 := kv.2]> result) acc l
            = foldr (fun kv result => <[kv.1 := kv.2]> result) acc (reverse l)).
  { induction l as [|x l IH]; intros acc; [reflexivity |].
    simpl. rewrite IH, reverse_cons, foldr_snoc. reflexivity. }
  rewrite Hfold.
  change (foldr (fun kv result => <[kv.1 := kv.2]> result) ∅ (reverse opts))
    with (list_to_map (M := gmap string value) (reverse opts)).
  rewrite <- (list_to_map_to_list m).
  apply list_to_map_proper.
  - rewrite reverse_Permutation, Hr. apply NoDup_fst_map_to_list.
  - rewrite reverse_Permutation. exact Hr.
Qed.

(** ** The transport *)

Section MoreTransport.
Context `{Runtime}.

Lemma bind_events {A} (f : Event -> list A) (tr evs : list Event) :
  (tr ++ evs) ≫= f = (tr ≫= f) ++ (evs ≫= f).
Proof. apply bind_app. Qed.

Lemma parseError_exact (resp : Response) (s : State) :
  exists e,
    parseError resp s
    = (Returns (serverError e), after s (world s) (parseError_events resp)) /\
    Method e = req_Method (resp_Request resp) /\
    URL e = req_URL (resp_Request resp) /\
    StatusCode e = resp_StatusCode resp /\
    (req_Method (resp_Request resp) = "HEAD" -> ErrorCode e = "" /\ Reason e = "").
Proof.
  unfold parseError, parseError_events.
  destruct (String.eqb (req_Method (resp_Request resp)) "HEAD") eqn:Hhead; simpl.
  - run_M. eexists. split.
    + unfold after. rewrite app_nil_r. destruct s. reflexivity.
    + simpl. auto.
  - destruct (readBody_run resp {| reply_Error := ""; reply_Reason := "" |} s)
      as [[rep err] Hrun].
    unfold mbind at 1, M_bind at 1. unfold mbind at 1, M_bind at 1.
    rewrite Hrun.
    assert (Hne : req_Method (resp_Request resp) = "HEAD" -> False).
    { intros Heq. rewrite Heq in Hhead. discriminate. }
    destruct err as [err|]; run_M; eexists; (split; [reflexivity |]); simpl;
      (split; [reflexivity |]); (split; [reflexivity |]); (split; [reflexivity |]);
      intros Heq; destruct (Hne Heq).
Qed.

Section MoreRequest.
Variables (t : transport) (ctx : Context) (method path : string)
  (body : option string) (s : State).

Lemma request_failure_exact (req : Request) (resp : Response) (w' : World) :
  newRequest t ctx method path body = Returns (Some req, None) ->
  http t (json_content_type method req) (world s) = (inl resp, w') ->
  400 <= resp_StatusCode resp ->
  exists e,
    request t ctx method path body s
    = (Returns (None, Some (serverError e)),
       after s w' (Sent (json_content_type method req) :: parseError_events resp)) /\
    Method e = req_Method (resp_Request resp) /\
    URL e = req_URL (resp_Request resp) /\
    StatusCode e = resp_StatusCode resp /\
    (req_Method (resp_Request resp) = "HEAD" -> ErrorCode e = "" /\ Reason e = "").
Proof.
  intros Hnew Hdo Hge. rewrite (request_built _ _ _ _ _ _ req Hnew).
  unfold mbind at 1, M_bind at 1. unfold Do. rewrite Hdo.
  destruct (400 <=? resp_StatusCode resp) eqn:Hle; [| lia].
  unfold mbind, M_bind.
  match goal with |- context [parseError resp ?st] =>
    destruct (parseError_exact resp st) as (e & Hrun & He) end.
  rewrite Hrun. exists e. split; [| exact He].
  unfold mret, M_ret, after. simpl. rewrite <- app_assoc. reflexivity.
Qed.

(** The ways request ends. *)
Lemma request_ends :
  (ctx = nilContext /\
   NewRequest_check method (prefix t +:+ path) = None /\
   request t ctx method path body s = (Panics "nil context", s)) \/
  (exists resp err s',
     request t ctx method path body s = (Returns (resp, err), s') /\
     ((exists r, resp = Some r /\ err = None /\ resp_StatusCode r < 400) \/
      (resp = None /\ exists e, err = Some e))).
Proof.
  destruct (newRequest_cases t ctx method path body)
    as [(msg0 & _ & Hnew) | [(req & Hnew & _) | (Hnil & Hcheck & Hnew)]].
  - right. rewrite (request_not_built _ _ _ _ _ _ _ Hnew). eauto 10.
  - right.
    destruct (http t (json_content_type method req) (world s))
      as [[resp|msg] w'] eqn:Hdo.
    + destruct (Z_lt_ge_dec (resp_StatusCode resp) 400) as [Hlt | Hge].
      * rewrite (request_success _ _ _ _ _ _ _ _ _ Hnew Hdo Hlt). eauto 10.
      * destruct (request_failure_exact req resp w' Hnew Hdo) as (e & -> & _);
          [lia | eauto 10].
    + rewrite (request_transport_failure _ _ _ _ _ _ _ _ _ Hnew Hdo). eauto 10.
  - left. rewrite (request_not_started _ _ _ _ _ _ _ Hnew). auto.
Qed.

(** X5: request panics in one situation only, and before anything is
    sent: the context is nil and http.NewRequest accepted the method and
    the URL.  Otherwise it returns, and never both or neither of a response
    and an error; a response it returns has a status below 400. *)
Theorem request_returns_one_unless_nil_context :
  (ctx = nilContext ->
   NewRequest_check method (prefix t +:+ path) = None ->
   request t ctx method path body s = (Panics "nil context", s)) /\
  (ctx <> nilContext \/ NewRequest_check method (prefix t +:+ path) <> None ->
   exists resp err s',
     request t ctx method path body s = (Returns (resp, err), s') /\
     ((exists r, resp = Some r /\ err = None /\ resp_StatusCode r < 400) \/
      (resp = None /\ exists e, err = Some e))).
Proof.
  destruct request_ends as [(Hnil & Hcheck & Hrun) | Hret].
  - split; [auto |]. intros [Hctx | Hbad]; contradiction.
  - split; [| auto].
    intros Hnil Hcheck. exfalso.
    destruct Hret as (resp & err & s' & Hrun & _).
    destruct (newRequest_cases t ctx method path body)
      as [(msg0 & Hbad & _) | [(req & Hnew & _) | (_ & _ & Hnew)]].
    + congruence.
    + subst ctx. unfold newRequest, http_NewRequest in Hnew.
      rewrite Hcheck in Hnew.
      destruct (decide (nilContext <> Background)) as [_ | Hn];
        [discriminate | apply Hn; discriminate].
    + rewrite (request_not_started _ _ _ _ _ _ _ Hnew) in Hrun. discriminate.
Qed.

Lemma sent_methods_body_events (resp : Response) (evs : list Event) :
  Forall (is_body_event resp) evs -> sent_methods evs = [].
Proof.
  induction 1 as [|e evs He _ IH]; [reflexivity |].
  unfold sent_methods in *. simpl. destruct He as [-> | ->]; simpl; exact IH.
Qed.

Lemma parseError_events_body (resp : Response) :
  Forall (is_body_event resp) (parseError_events resp).
Proof.
  unfold parseError_events. destruct (String.eqb _ _); [constructor |].
  constructor; [left; reflexivity |].
  constructor; [right; reflexivity | constructor].
Qed.




(** X7: closedRequest reads the body of the response it received to its
    end and closes it, once each, whatever the status; only the body of a
    failed HEAD is neither read nor closed. *)
Theorem closedRequest_bodies (req : Request) (resp : Response) (w' : World)
    (o : outcome (option Response * option error)) (s' : State) :
  newRequest t ctx method path body = Returns (Some req, None) ->
  http t (json_content_type method req) (world s) = (inl resp, w') ->
  closedRequest t ctx method path body s = (o, s') ->
  let touched :=
    if (400 <=? resp_StatusCode resp)
       && String.eqb (req_Method (resp_Request resp)) "HEAD"
    then [] else [resp] in
  read_bodies (trace s') = read_bodies (trace s) ++ touched /\
  closed_bodies (trace s') = closed_bodies (trace s) ++ touched.
Proof.
  intros Hnew Hdo Hrun touched. subst touched.
  destruct (Z_lt_ge_dec (resp_StatusCode resp) 400) as [Hlt | Hge].
  - rewrite (closedRequest_success _ _ _ _ _ _ _ _ _ Hnew Hdo Hlt) in Hrun.
    injection Hrun as _ <-.
    destruct (400 <=? resp_StatusCode resp) eqn:Hle; [lia |]. simpl.
    unfold read_bodies, closed_bodies. rewrite !bind_events. auto.
  - destruct (request_failure_exact req resp w' Hnew Hdo) as (e & Hreq & _); [lia |].
    unfold closedRequest in Hrun. unfold mbind at 1, M_bind at 1 in Hrun.
    rewrite Hreq in Hrun. run_M. injection Hrun as _ <-.
    destruct (400 <=? resp_StatusCode resp) eqn:Hle; [| lia]. simpl.
    unfold read_bodies, closed_bodies, parseError_events. rewrite !bind_events.
    destruct (String.eqb (req_Method (resp_Request resp)) "HEAD"); simpl; auto.
Qed.

(** X8: a failure of the client reaches the caller of closedRequest as it
    is: an error that is no server error, of which no status predicate
    holds, with no body read or closed. *)
Theorem closedRequest_transport_failure (req : Request) (msg : string) (w' : World) :
  newRequest t ctx method path body = Returns (Some req, None) ->
  http t (json_content_type method req) (world s) = (inr msg, w') ->
  closedRequest t ctx method path body s
  = (Returns (None, Some (foreignError msg)),
     after s w' [Sent (json_content_type method req)]) /\
  (forall code, ErrorStatus (Some (foreignError msg)) code = Returns false).
Proof.
  intros Hnew Hdo. split; [| intros code; reflexivity].
  unfold closedRequest. unfold mbind at 1, M_bind at 1.
  rewrite (request_transport_failure _ _ _ _ _ _ _ _ _ Hnew Hdo). reflexivity.
Qed.

End MoreRequest.

End MoreTransport.

(** ** The prefix of a transport *)

Lemma append_nil_l (a : string) : "" +:+ a = a.
Proof. reflexivity. Qed.

Lemma TrimRight_split (s cutset : string) :
  exists suffix,
    s = TrimRight s cutset +:+ suffix /\
    string_forall (fun c => in_cutset c cutset) suffix = true.
Proof.
  induction s as [|c s IH]; [exists ""; auto |].
  destruct IH as (suffix & Hs & Hall). simpl.
  destruct (String.eqb (TrimRight s cutset) "") eqn:Hempty; simpl.
  - apply String.eqb_eq in Hempty. rewrite Hempty, append_nil_l in Hs.
    destruct (in_cutset c cutset) eqn:Hin.
    + exists (String c suffix). rewrite append_nil_l. simpl.
      rewrite Hin, Hall, <- Hs. auto.
    + exists suffix. rewrite Hempty. split; [| exact Hall].
      rewrite append_cons, append_nil_l, <- Hs. reflexivity.
  - exists suffix. split; [| exact Hall].
    rewrite append_cons, <- Hs. reflexivity.
Qed.

Lemma TrimRight_last (s cutset : string) :
  forall q c, TrimRight s cutset = q +:+ String c "" -> in_cutset c cutset = false.
Proof.
  induction s as [|x s IH]; intros q c; simpl.
  - destruct q; discriminate.
  - destruct (String.eqb (TrimRight s cutset) "") eqn:Hempty; simpl.
    + apply String.eqb_eq in Hempty.
      destruct (in_cutset x cutset) eqn:Hin; [destruct q; discriminate |].
      rewrite Hempty. destruct q as [|y q]; simpl.
      * intros Heq. injection Heq as <-. exact Hin.
      * rewrite append_cons. intros Heq. injection Heq as _ Heq.
        destruct q; discriminate.
    + destruct q as [|y q].
      * simpl. intros Heq. injection Heq as _ Heq. rewrite Heq in Hempty.
        discriminate.
      * rewrite append_cons. intros Heq. injection Heq as _ Heq.
        apply (IH q c Heq).
Qed.

(** X9: the prefix of a new transport is the given one without its
    trailing slashes: what was cut off are slashes only, and the prefix
    does not end in one.  It is what the client's URL returns. *)
Theorem newTransport_prefix `{Runtime}
    (D : Request -> World -> (Response + string) * World) (pfx : string)
    (httpClient : option (Request -> World -> (Response + string) * World))
    (a : option Auth) :
  let c := {| client_transport := newTransport D pfx httpClient a |} in
  (exists suffix,
     pfx = Client_URL c +:+ suffix /\
     string_forall (fun x => Ascii.eqb x "/") suffix = true) /\
  (forall q, Client_URL c <> q +:+ "/").
Proof.
  intros c. unfold Client_URL, c, newTransport. simpl. split.
  - destruct (TrimRight_split pfx "/") as (suffix & Hs & Hall).
    exists suffix. split; [exact Hs |].
    clear Hs. induction suffix as [|x suffix IH]; [reflexivity |].
    simpl in *. apply andb_true_iff in Hall as [Hx Hall].
    rewrite (IH Hall), andb_true_r.
    assert (Hc : forall y, in_cutset y "/" = Ascii.eqb y "/")
      by (intros [[] [] [] [] [] [] [] []]; reflexivity).
    rewrite <- Hc. exact Hx.
  - intros q Heq. apply TrimRight_last in Heq. discriminate.
Qed.

(** ** Revisions *)

(** X10: responseRev undoes the quoting of the Etag header: from a header
    that is a revision with one byte before and one byte after it, the
    quotes of CouchDB or any others, it returns the revision. *)
Theorem responseRev_unquotes (resp : Response) (rev : string) (a b : ascii) :
  Header_Get (resp_Header resp) "Etag" = String a (rev +:+ String b "") ->
  responseRev (Some resp, None) = Returns (rev, None).
Proof. apply responseRev_between. Qed.

(** ** Documents *)

Section MoreDatabase.
Context `{Runtime}.
Context `{!JSONUnmarshal idrev} `{!JSONMarshal Security}.

(** What is common to Put, Delete and Rev: the unquoted Etag of a reply
    below 400. *)
Lemma revision_of_reply (t : transport) (ctx : Context) (method path : string)
    (body : option string) (s : State) (req : Request) (resp : Response)
    (w' : World) (rev' : string) :
  newRequest t ctx method path body = Returns (Some req, None) ->
  http t (json_content_type method req) (world s) = (inl resp, w') ->
  resp_StatusCode resp < 400 ->
  Header_Get (resp_Header resp) "Etag" = quoted rev' ->
  (r ← closedRequest t ctx method path body; liftM (responseRev r)) s
  = (Returns (rev', None),
     after s w' [Sent (json_content_type method req); BodyRead resp; BodyClosed resp]).
Proof.
  intros Hnew Hdo Hlt Hetag. unfold mbind, M_bind.
  rewrite (closedRequest_success _ _ _ _ _ _ _ _ _ Hnew Hdo Hlt).
  unfold liftM. rewrite (responseRev_between resp rev' _ _ Hetag). reflexivity.
Qed.

(** X11: when the document marshals and the PUT is answered with a status
    below 400 and a quoted Etag, Put returns the revision in the Etag; the
    PUT went to the document's path with the given revision as [rev] and
    the JSON text as body, and the reply's body was read and closed. *)
Theorem Put_returns_revision {T} `{JSONMarshal T} (db : ContextAwareDB)
    (ctx : Context) (id : string) (doc : T) (rev json : string) (s : State)
    (req : Request) (resp : Response) (w' : World) (rev' : string) :
  json_Marshal doc = inl json ->
  newRequest (db_transport db) ctx "PUT" (revpath rev [name db; id]) (Some json)
  = Returns (Some req, None) ->
  http (db_transport db) (json_content_type "PUT" req) (world s) = (inl resp, w') ->
  resp_StatusCode resp < 400 ->
  Header_Get (resp_Header resp) "Etag" = quoted rev' ->
  Put db ctx id doc rev s
  = (Returns (rev', None),
     after s w' [Sent (json_content_type "PUT" req); BodyRead resp; BodyClosed resp]) /\
  req_Method (json_content_type "PUT" req) = "PUT" /\
  req_URL (json_content_type "PUT" req)
  = prefix (db_transport db) +:+ revpath rev [name db; id] /\
  req_Body (json_content_type "PUT" req) = Some json.
Proof.
  intros Hjson Hnew Hdo Hlt Hetag.
  destruct (newRequest_fields _ _ _ _ _ _ Hnew) as (Hm & Hu & Hb).
  split; [| simpl; auto].
  rewrite (Put_marshalled _ _ _ _ _ _ _ Hjson).
  apply revision_of_reply; assumption.
Qed.

(** X12: when the DELETE is answered with a status below 400 and a quoted
    Etag, Delete returns the revision in the Etag; the request went to the
    document's path with the revision to delete as [rev] and no body. *)
Theorem Delete_returns_revision (db : ContextAwareDB) (ctx : Context)
    (id rev : string) (s : State) (req : Request) (resp : Response) (w' : World)
    (rev' : string) :
  newRequest (db_transport db) ctx "DELETE" (revpath rev [name db; id]) None
  = Returns (Some req, None) ->
  http (db_transport db) (json_content_type "DELETE" req) (world s) = (inl resp, w') ->
  resp_StatusCode resp < 400 ->
  Header_Get (resp_Header resp) "Etag" = quoted rev' ->
  Delete db ctx id rev s
  = (Returns (rev', None),
     after s w' [Sent (json_content_type "DELETE" req); BodyRead resp;
                 BodyClosed resp]) /\
  req_Method (json_content_type "DELETE" req) = "DELETE" /\
  req_URL (json_content_type "DELETE" req)
  = prefix (db_transport db) +:+ revpath rev [name db; id] /\
  req_Body (json_content_type "DELETE" req) = None.
Proof.
  intros Hnew Hdo Hlt Hetag.
  destruct (newRequest_fields _ _ _ _ _ _ Hnew) as (Hm & Hu & Hb).
  split; [| simpl; auto].
  unfold Delete. apply revision_of_reply; assumption.
Qed.

(** X13: when the HEAD of Rev is answered with a status of 400 or more,
    Rev returns the empty revision and a server error with that status and
    with empty error code and reason; the body is not read; the error is
    not-found exactly for status 404. *)
Theorem Rev_failed (db : ContextAwareDB) (ctx : Context) (id : string) (s : State)
    (req : Request) (resp : Response) (w' : World) :
  newRequest (db_transport db) ctx "HEAD" (path [name db; id]) None
  = Returns (Some req, None) ->
  http (db_transport db) (json_content_type "HEAD" req) (world s) = (inl resp, w') ->
  400 <= resp_StatusCode resp ->
  req_Method (resp_Request resp) = "HEAD" ->
  exists e,
    db_Rev db ctx id s
    = (Returns ("", Some (serverError e)),
       after s w' [Sent (json_content_type "HEAD" req)]) /\
    StatusCode e = resp_StatusCode resp /\
    ErrorCode e = "" /\ Reason e = "" /\
    NotFound (Some (serverError e)) = Returns (resp_StatusCode resp =? 404).
Proof.
  intros Hnew Hdo Hge Hhead.
  destruct (request_failure_exact _ _ _ _ _ _ req resp w' Hnew Hdo Hge)
    as (e & Hreq & _ & _ & Hst & Hempty).
  destruct (Hempty Hhead) as [Hc Hr].
  exists e. split; [| rewrite <- Hst; auto].
  unfold db_Rev, closedRequest. unfold mbind at 1, M_bind at 1.
  unfold mbind at 1, M_bind at 1. rewrite Hreq.
  unfold parseError_events. rewrite Hhead. reflexivity.
Qed.

(** When the document cannot be marshalled, Put and Post return the
    error of json.Marshal and hand nothing to the client. *)
Lemma no_request_without_json {T} `{JSONMarshal T} (db : ContextAwareDB)
    (ctx : Context) (id : string) (doc : T) (rev msg : string) (s : State) :
  json_Marshal doc = inr msg ->
  Put db ctx id doc rev s = (Returns ("", Some (foreignError msg)), s) /\
  Post db ctx doc s = (Returns ("", "", Some (foreignError msg)), s).
Proof. intros Hjson. unfold Put, Post. rewrite Hjson. auto. Qed.

(** X14: PutSecurity drops the error of json.Marshal and sends its PUT
    all the same, with an empty body then; on a status below 400 it
    returns no error and neither reads nor closes the reply's body. *)
Theorem PutSecurity_sends (db : ContextAwareDB) (ctx : Context) (secobj : Security)
    (s : State) (req : Request) (resp : Response) (w' : World) :
  let json := match json_Marshal secobj with
              | inl json => json
              | inr _ => ""
              end in
  newRequest (db_transport db) ctx "PUT" (path [name db; "_security"]) (Some json)
  = Returns (Some req, None) ->
  http (db_transport db) (json_content_type "PUT" req) (world s) = (inl resp, w') ->
  resp_StatusCode resp < 400 ->
  PutSecurity db ctx secobj s
  = (Returns None, after s w' [Sent (json_content_type "PUT" req)]) /\
  req_Body (json_content_type "PUT" req) = Some json /\
  (forall msg, json_Marshal secobj = inr msg ->
     req_Body (json_content_type "PUT" req) = Some "").
Proof.
  intros json Hnew Hdo Hlt.
  destruct (newRequest_fields _ _ _ _ _ _ Hnew) as (Hm & Hu & Hb).
  split; [| split].
  - unfold PutSecurity. fold json. unfold mbind, M_bind.
    rewrite (request_success _ _ _ _ _ _ _ _ _ Hnew Hdo Hlt). reflexivity.
  - simpl. exact Hb.
  - intros msg Hmsg. simpl. rewrite Hb. subst json. rewrite Hmsg. reflexivity.
Qed.

(** *** Options that cannot be encoded *)

Lemma optpath_rejects (opts : Options) (jskeys segs : list string) (k : string)
    (v : value) :
  In (k, v) opts -> isjson k jskeys = false -> scalar v = false ->
  exists err, optpath opts jskeys segs = Returns ("", Some err).
Proof.
  intros Hin Hkey Hv. unfold optpath.
  destruct opts as [|kv opts]; [destruct Hin |].
  replace (0 <? Z.of_nat (length (kv :: opts))) with true
    by (symmetry; apply Z.ltb_lt; simpl; lia).
  unfold encopts.
  destruct (encopts_loop_rejects jskeys k v (kv :: opts) Hin Hkey Hv "?" false)
    as [err Hrun].
  rewrite Hrun. simpl. eauto.
Qed.

(** X15: an option that cannot be encoded (a key that is no JSON key with
    nil or a value that is no string, bool, integer or float) makes Get,
    View and AllDocs return an error before anything is sent, with the
    target as it was passed. *)
Theorem unencodable_option_sends_nothing {T} `{JSONUnmarshal T}
    (db : ContextAwareDB) (ctx : Context) (id ddoc view : string) (doc : T)
    (opts : Options) (k : string) (v : value) (s : State) :
  In (k, v) opts ->
  isjson k getJsonKeys = false ->
  isjson k viewJsonKeys = false ->
  scalar v = false ->
  (exists err, Get db ctx id doc opts s = (Returns (doc, Some err), s)) /\
  (exists err, db_View db ctx ddoc view doc opts s = (Returns (doc, Some err), s)) /\
  (exists err, AllDocs db ctx doc opts s = (Returns (doc, Some err), s)).
Proof.
  intros Hin Hget Hview Hv. split; [| split].
  - destruct (optpath_rejects opts getJsonKeys [name db; id] k v Hin Hget Hv)
      as [err Hopt].
    exists err. unfold Get. rewrite Hopt. reflexivity.
  - match goal with |- context [db_View _ _ ?d _ _ _] =>
      destruct (optpath_rejects opts viewJsonKeys
                  [name db; "_design"; Replace_first d "_design/" ""; "_view"; view]
                  k v Hin Hview Hv) as [err Hopt] end.
    exists err. unfold db_View. rewrite Hopt. reflexivity.
  - destruct (optpath_rejects opts viewJsonKeys [name db; "_all_docs"] k v Hin Hview Hv)
      as [err Hopt].
    exists err. unfold AllDocs. rewrite Hopt. reflexivity.
Qed.

(** *** The name of a design document *)

Lemma Replace_first_unfold (s old new : string) :
  Replace_first s old new
  = if String.prefix old s then new +:+ drop_bytes (String.length old) s
    else match s with
         | EmptyString => EmptyString
         | String c s' => String c (Replace_first s' old new)
         end.
Proof. destruct s; reflexivity. Qed.

Lemma prefix_append (a b : string) : String.prefix a (a +:+ b) = true.
Proof.
  induction a as [|x a IH]; [destruct b; reflexivity |].
  rewrite append_cons. simpl. destruct (ascii_dec x x); [exact IH | contradiction].
Qed.

Lemma drop_bytes_append (a b : string) : drop_bytes (String.length a) (a +:+ b) = b.
Proof.
  induction a as [|x a IH]; [reflexivity |].
  rewrite append_cons. simpl. exact IH.
Qed.

Lemma Replace_first_prefix (old rest new : string) :
  Replace_first (old +:+ rest) old new = new +:+ rest.
Proof.
  rewrite Replace_first_unfold, prefix_append, drop_bytes_append. reflexivity.
Qed.

(** X16: View takes the name of a design document with or without the
    [_design/] before it: for a name in which [_design/] does not occur,
    both calls are the same computation. *)
Theorem View_design_prefix_optional {T} `{JSONUnmarshal T} (db : ContextAwareDB)
    (ctx : Context) (ddoc view : string) (result : T) (opts : Options) :
  Replace_first ddoc "_design/" "" = ddoc ->
  db_View db ctx ("_design/" +:+ ddoc) view result opts
  = db_View db ctx ddoc view result opts.
Proof.
  intros Hfree. unfold db_View.
  rewrite Replace_first_prefix, Hfree. reflexivity.
Qed.

(** *** What the calls send, and when they panic *)

Lemma sent_methods_app (tr evs : list Event) :
  sent_methods (tr ++ evs) = sent_methods tr ++ sent_methods evs.
Proof. apply bind_app. Qed.

(** The ways closedRequest ends. *)
Lemma closedRequest_ends (t : transport) (ctx : Context) (method path : string)
    (body : option string) (s : State) :
  method <> "" ->
  (ctx = nilContext /\
   closedRequest t ctx method path body s = (Panics "nil context", s)) \/
  (exists resp err s',
     closedRequest t ctx method path body s = (Returns (resp, err), s') /\
     ((s' = s /\ resp = None /\ exists msg, err = Some (foreignError msg)) \/
      (sent_methods (trace s') = sent_methods (trace s) ++ [method] /\
       ((resp = None /\ exists e, err = Some e) \/
        (exists r, resp = Some r /\ err = None /\ resp_StatusCode r < 400 /\
                   In r (closed_bodies (trace s'))))))).
Proof.
  intros Hm.
  destruct (newRequest_cases t ctx method path body)
    as [(msg0 & _ & Hnew) | [(req & Hnew & Hmeth & _) | (Hnil & _ & Hnew)]].
  - right. rewrite (closedRequest_not_built _ _ _ _ _ _ _ Hnew). eauto 10.
  - right.
    assert (Hsent : req_Method (json_content_type method req) = method).
    { destruct (json_content_type_keeps method req) as (-> & _). rewrite Hmeth.
      destruct (String.eqb method "") eqn:Heq; [| reflexivity].
      apply String.eqb_eq in Heq. contradiction. }
    destruct (http t (json_content_type method req) (world s))
      as [[resp|msg] w'] eqn:Hdo.
    + destruct (Z_lt_ge_dec (resp_StatusCode resp) 400) as [Hlt | Hge].
      * rewrite (closedRequest_success _ _ _ _ _ _ _ _ _ Hnew Hdo Hlt).
        eexists; eexists; eexists. split; [reflexivity |]. right. split.
        -- simpl. rewrite sent_methods_app. simpl. rewrite Hsent. reflexivity.
        -- right. exists resp. repeat split; auto.
           simpl. unfold closed_bodies. rewrite bind_events. simpl.
           apply in_or_app. right. left. reflexivity.
      * destruct (request_failure_exact t ctx method path body s req resp w' Hnew Hdo)
          as (e & Hreq & _); [lia |].
        unfold closedRequest. unfold mbind at 1, M_bind at 1. rewrite Hreq.
        run_M. eexists; eexists; eexists. split; [reflexivity |]. right. split.
        -- simpl. rewrite sent_methods_app. simpl. rewrite Hsent.
           rewrite (sent_methods_body_events resp _ (parseError_events_body resp)).
           reflexivity.
        -- left. eauto.
    + unfold closedRequest. unfold mbind at 1, M_bind at 1.
      rewrite (request_transport_failure _ _ _ _ _ _ _ _ _ Hnew Hdo). run_M.
      eexists; eexists; eexists. split; [reflexivity |]. right. split.
      * simpl. rewrite sent_methods_app. simpl. rewrite Hsent. reflexivity.
      * left. eauto.
  - left. split; [exact Hnil |].
    unfold closedRequest. unfold mbind at 1, M_bind at 1.
    rewrite (request_not_started _ _ _ _ _ _ _ Hnew). reflexivity.
Qed.

(** The ways Get ends without options; its error is never a nil pointer. *)
Lemma Get_ends {T} `{JSONUnmarshal T} (db : ContextAwareDB) (ctx : Context)
    (id : string) (doc : T) (s : State) :
  (ctx = nilContext /\ Get db ctx id doc [] s = (Panics "nil context", s)) \/
  (exists doc' err s1,
     Get db ctx id doc [] s = (Returns (doc', err), s1) /\
     err <> Some nilError /\
     ((s1 = s /\ doc' = doc /\ exists msg, err = Some (foreignError msg)) \/
      sent_methods (trace s1) = sent_methods (trace s) ++ ["GET"])).
Proof.
  destruct (newRequest_cases (db_transport db) ctx "GET" (path [name db; id]) None)
    as [(msg0 & _ & Hnew) | [(req & Hnew & Hmeth & _) | (Hnil & _ & Hnew)]].
  - right. rewrite Get_request. unfold mbind at 1, M_bind at 1.
    rewrite (request_not_built _ _ _ _ _ _ _ Hnew). run_M.
    eexists; eexists; eexists. split; [reflexivity |].
    split; [discriminate | eauto 10].
  - right. rewrite Get_request. unfold mbind at 1, M_bind at 1.
    assert (Hsent : forall evs, sent_methods evs = [] ->
              sent_methods (trace s ++ Sent (json_content_type "GET" req) :: evs)
              = sent_methods (trace s) ++ ["GET"]).
    { intros evs Hev. rewrite sent_methods_app.
      change (sent_methods (Sent (json_content_type "GET" req) :: evs))
        with (req_Method req :: sent_methods evs).
      rewrite Hev, Hmeth. reflexivity. }
    destruct (http (db_transport db) (json_content_type "GET" req) (world s))
      as [[resp|msg] w'] eqn:Hdo.
    + destruct (Z_lt_ge_dec (resp_StatusCode resp) 400) as [Hlt | Hge].
      * rewrite (request_success _ _ _ _ _ _ _ _ _ Hnew Hdo Hlt).
        match goal with |- context [readBody resp doc ?st] =>
          destruct (readBody_run resp doc st) as [[doc' err] Hread] end.
        rewrite Hread.
        eexists; eexists; eexists. split; [reflexivity |]. split.
        -- intros ->. unfold readBody in Hread. run_M.
           destruct (body_err (resp_Body resp)); simpl in Hread;
             [discriminate |].
           destruct (json_Unmarshal _ doc) as [v1 [m1|]]; discriminate.
        -- right. simpl. rewrite <- app_assoc. apply Hsent. reflexivity.
      * destruct (request_failure_exact _ _ _ _ _ _ req resp w' Hnew Hdo)
          as (e & -> & _); [lia |].
        run_M. eexists; eexists; eexists. split; [reflexivity |].
        split; [discriminate |]. right. simpl.
        apply Hsent.
        apply (sent_methods_body_events resp), parseError_events_body.
    + rewrite (request_transport_failure _ _ _ _ _ _ _ _ _ Hnew Hdo). run_M.
      eexists; eexists; eexists. split; [reflexivity |].
      split; [discriminate |]. right. simpl.
      apply Hsent. reflexivity.
  - left. rewrite Get_request. unfold mbind at 1, M_bind at 1.
    rewrite (request_not_started _ _ _ _ _ _ _ Hnew). auto.
Qed.

Lemma Put_ends {T} `{JSONMarshal T} (db : ContextAwareDB) (ctx : Context)
    (id : string) (doc : T) (rev : string) (s : State) :
  exists o s',
    Put db ctx id doc rev s = (o, s') /\
    (sent_methods (trace s') = sent_methods (trace s) \/
     sent_methods (trace s') = sent_methods (trace s) ++ ["PUT"]) /\
    (forall msg, o = Panics msg ->
       (ctx = nilContext /\ s' = s) \/
       exists r, In r (closed_bodies (trace s')) /\ resp_StatusCode r < 400 /\
                 String.length (Header_Get (resp_Header r) "Etag") = 1%nat).
Proof.
  unfold Put. destruct (json_Marshal doc) as [json|msg].
  - destruct (closedRequest_ends (db_transport db) ctx "PUT"
                (revpath rev [name db; id]) (Some json) s)
      as [(Hnil & Hrun) | (resp & err & s' & Hrun & Hcases)]; [discriminate | |].
    { unfold mbind, M_bind. rewrite Hrun.
      eexists; eexists. split; [reflexivity |].
      split; [left; reflexivity |]. intros msg _. left. auto. }
    unfold mbind, M_bind. rewrite Hrun. unfold liftM.
    eexists; eexists. split; [reflexivity |].
    destruct Hcases as [(-> & -> & msg & ->) | [Hsent Hres]].
    + split; [left; reflexivity | discriminate].
    + split; [right; exact Hsent |].
      destruct Hres as [(-> & e & ->) | (r & -> & -> & Hlt & Hin)];
        [discriminate |].
      intros msg Hpanic. right. exists r. split; [exact Hin |]. split; [exact Hlt |].
      remember (Header_Get (resp_Header r) "Etag") as etag eqn:Hetag.
      destruct etag as [|a [|b etag]]; [| reflexivity |].
      * rewrite (responseRev_missing r) in Hpanic by auto. discriminate.
      * rewrite (responseRev_strips r (String a (String b etag))) in Hpanic;
          [discriminate | auto | simpl; lia].
  - eexists; eexists. split; [reflexivity |].
    split; [left; reflexivity | discriminate].
Qed.

(** X17: Put panics in two situations only: on a nil context, before
    anything is sent, and on a reply below 400 whose Etag header is one
    byte long; a nil response is never dereferenced. *)
Theorem Put_panics_only_on_nil_context_or_short_etag {T} `{JSONMarshal T}
    (db : ContextAwareDB) (ctx : Context) (id : string) (doc : T) (rev : string)
    (s s' : State) (msg : string) :
  Put db ctx id doc rev s = (Panics msg, s') ->
  (ctx = nilContext /\ s' = s) \/
  exists r,
    In r (closed_bodies (trace s')) /\
    resp_StatusCode r < 400 /\
    String.length (Header_Get (resp_Header r) "Etag") = 1%nat.
Proof.
  intros Hrun.
  destruct (Put_ends db ctx id doc rev s) as (o & s0 & Hput & _ & Hpanic).
  rewrite Hput in Hrun. injection Hrun as -> ->. eauto.
Qed.

Section MoreSyncDesign.
Variables (db : ContextAwareDB) (ctx : Context) (d : Design) (s : State).

(** X18: SyncDesign sends nothing, or a GET, or a GET and then a PUT:
    never a PUT without the GET before it, never two writes, and no other
    method. *)
Theorem SyncDesign_traffic :
  exists ms,
    sent_methods (trace (SyncDesign db ctx d s).2) = sent_methods (trace s) ++ ms /\
    (ms = [] \/ ms = ["GET"] \/ ms = ["GET"; "PUT"]).
Proof.
  destruct (Get_ends db ctx (ID d) Design_zero s)
    as [(_ & Hget) | (prev & err & s1 & Hget & _ & Hcases)].
  { unfold SyncDesign. unfold mbind at 1, M_bind at 1. rewrite Hget.
    exists []. rewrite app_nil_r. auto. }
  rewrite (SyncDesign_after_Get _ _ _ _ _ _ _ Hget).
  destruct Hcases as [(-> & -> & msg & ->) | Hsent].
  - simpl. exists []. rewrite app_nil_r. auto.
  - destruct (match err with Some _ => NotFound err | None => Returns true end)
      as [[|]|msg]; [| exists ["GET"]; auto | exists ["GET"]; auto].
    destruct (negb (String.eqb (Rev prev) "")
              && String.eqb (ViewChecksum d) (ViewChecksum prev)).
    { exists ["GET"]. auto. }
    destruct (Put_ends db ctx (ID d) (set_Rev d "") (Rev prev) s1)
      as (op & s2 & Hput & Hms & _).
    rewrite Hput.
    assert (Hstate : (match op with
                      | Returns (rev, Some e) => (Returns (set_Rev d "", Some e), s2)
                      | Returns (rev, None) => (Returns (set_Rev d rev, None), s2)
                      | Panics msg => (Panics msg, s2)
                      end).2 = s2)
      by (destruct op as [[rev [e|]]|msg]; reflexivity).
    rewrite Hstate.
    destruct Hms as [-> | ->]; rewrite Hsent.
    + exists ["GET"]. auto.
    + exists ["GET"; "PUT"]. rewrite <- app_assoc. auto.
Qed.

(** X19: whatever SyncDesign returns, the design keeps its identifier
    and its views; only the revision is written. *)
Theorem SyncDesign_keeps_design (d' : Design) (err : option error) (s' : State) :
  SyncDesign db ctx d s = (Returns (d', err), s') ->
  ID d' = ID d /\ Views d' = Views d.
Proof.
  destruct (Get_ends db ctx (ID d) Design_zero s)
    as [(_ & Hget) | (prev & e & s1 & Hget & _)].
  { unfold SyncDesign. unfold mbind at 1, M_bind at 1. rewrite Hget. discriminate. }
  rewrite (SyncDesign_after_Get _ _ _ _ _ _ _ Hget).
  destruct (match e with Some _ => NotFound e | None => Returns true end)
    as [[|]|msg]; [| intros Heq; injection Heq as <- _ _; auto | discriminate].
  destruct (negb (String.eqb (Rev prev) "")
            && String.eqb (ViewChecksum d) (ViewChecksum prev)).
  { intros Heq. injection Heq as <- _ _. auto. }
  destruct (Put db ctx (ID d) (set_Rev d "") (Rev prev) s1) as [[[rev [e'|]]|msg] s2];
    intros Heq; try discriminate; injection Heq as <- _ _; auto.
Qed.

End MoreSyncDesign.

Lemma optpath_ends (opts : Options) (jskeys segs : list string) :
  exists r, optpath opts jskeys segs = Returns r.
Proof.
  unfold optpath. destruct (0 <? Z.of_nat (length opts)); [| eauto].
  unfold encopts.
  destruct (encopts_loop_returns jskeys opts "?" false) as [[os [err|]] ->];
    simpl; eauto.
Qed.

(** The ways request ends on a context that is not nil. *)
Lemma request_returns (t : transport) (ctx : Context) (method path : string)
    (body : option string) (s : State) :
  ctx <> nilContext ->
  exists resp err s',
    request t ctx method path body s = (Returns (resp, err), s') /\
    ((exists r, resp = Some r /\ err = None /\ resp_StatusCode r < 400) \/
     (resp = None /\ exists e, err = Some e)).
Proof.
  intros Hctx.
  destruct (request_ends t ctx method path body s) as [(Hnil & _) | Hret];
    [contradiction | exact Hret].
Qed.

(** X20: with a context that is not nil, Get and Security do not panic:
    the response they read from is never nil.  Security returns a security
    object or an error, never both and never neither. *)
Theorem reads_panic_only_on_nil_context {T} `{JSONUnmarshal T}
    (db : ContextAwareDB) (ctx : Context) (id : string) (doc : T) (opts : Options)
    (s : State) :
  ctx <> nilContext ->
  (exists doc' err s', Get db ctx id doc opts s = (Returns (doc', err), s')) /\
  (exists sec err s',
     db_Security db ctx s = (Returns (sec, err), s') /\
     (sec = None <-> err <> None)).
Proof.
  intros Hctx. split.
  - unfold Get. unfold mbind at 1, M_bind at 1. unfold liftM.
    destruct (optpath_ends opts getJsonKeys [name db; id]) as [[p [err|]] Hopt];
      rewrite Hopt; [unfold mret, M_ret; eauto |].
    destruct (request_returns (db_transport db) ctx "GET" p None s Hctx)
      as (resp & err & s1 & Hreq & Hcases).
    unfold mbind, M_bind. rewrite Hreq.
    destruct Hcases as [(r & -> & -> & _) | (-> & e & ->)];
      [| unfold mret, M_ret; eauto].
    destruct (readBody_run r doc s1) as [[doc' err] Hread].
    rewrite Hread. eauto.
  - unfold db_Security.
    destruct (request_returns (db_transport db) ctx "GET" (path [name db; "_security"])
                None s Hctx) as (resp & err & s1 & Hreq & Hcases).
    unfold mbind at 1, M_bind at 1. rewrite Hreq.
    destruct Hcases as [(r & -> & -> & _) | (-> & e & ->)].
    + destruct (resp_ContentLength r =? 0).
      * run_M. eexists; eexists; eexists. split; [reflexivity |].
        split; [discriminate | congruence].
      * destruct (readBody_run r Security_zero s1) as [[sec err] Hread].
        unfold mbind, M_bind. rewrite Hread.
        destruct err as [err|]; run_M; eexists; eexists; eexists;
          (split; [reflexivity |]); split; congruence.
    + run_M. eexists; eexists; eexists. split; [reflexivity |].
      split; congruence.
Qed.

(** X21: when the document marshals and the POST is answered with a
    status below 400 and a body that decodes, Post returns the id and the
    revision of the body; the POST went to the database's path with the
    JSON text as body, and the reply's body was read and closed. *)
Theorem Post_returns_id_rev {T} `{JSONMarshal T} (db : ContextAwareDB)
    (ctx : Context) (doc : T) (json : string) (s : State) (req : Request)
    (resp : Response) (w' : World) (res : idrev) :
  json_Marshal doc = inl json ->
  newRequest (db_transport db) ctx "POST" (revpath "" [name db]) (Some json)
  = Returns (Some req, None) ->
  http (db_transport db) (json_content_type "POST" req) (world s) = (inl resp, w') ->
  resp_StatusCode resp < 400 ->
  body_err (resp_Body resp) = None ->
  json_Unmarshal (body_bytes (resp_Body resp)) {| idrev_ID := ""; idrev_Rev := "" |}
  = (res, None) ->
  Post db ctx doc s
  = (Returns (idrev_ID res, idrev_Rev res, None),
     after s w' [Sent (json_content_type "POST" req); BodyRead resp; BodyClosed resp]) /\
  req_Method (json_content_type "POST" req) = "POST" /\
  req_URL (json_content_type "POST" req)
  = prefix (db_transport db) +:+ "/" +:+ QueryEscape (name db) /\
  req_Body (json_content_type "POST" req) = Some json.
Proof.
  intros Hjson Hnew Hdo Hlt Hread Hdec.
  destruct (newRequest_fields _ _ _ _ _ _ Hnew) as (Hm & Hu & Hb).
  split.
  - unfold Post. rewrite Hjson. unfold mbind at 1, M_bind at 1.
    rewrite (request_success _ _ _ _ _ _ _ _ _ Hnew Hdo Hlt).
    unfold responseIDRev, readBody. run_M. rewrite Hread. simpl. rewrite Hdec.
    simpl. unfold after. simpl. rewrite <- !app_assoc. reflexivity.
  - simpl. split; [exact Hm |]. split; [| exact Hb].
    rewrite Hu. reflexivity.
Qed.

End MoreDatabase.

(** ** Databases of a server *)

Section MoreClient.
Context `{Runtime}.

(** X22: with a context that is not nil, CreateDB does not panic and
    returns a database object of the given name on every path, also next
    to an error. *)
Theorem CreateDB_returns_db_also_with_error (c : ContextAwareClient) (ctx : Context)
    (nm : string) (s : State) :
  ctx <> nilContext ->
  exists err s',
    CreateDB c ctx nm s = (Returns (Some (Client_DB c nm), err), s') /\
    name (Client_DB c nm) = nm /\
    db_transport (Client_DB c nm) = client_transport c.
Proof.
  intros Hctx. unfold CreateDB.
  destruct (closedRequest_ends (client_transport c) ctx "PUT" (path [nm]) None s)
    as [(Hnil & _) | (resp & err & s' & Hrun & _)];
    [discriminate | contradiction |].
  unfold mbind, M_bind. rewrite Hrun.
  destruct err; run_M; eauto.
Qed.

(** X23: EnsureDB returns the database and no error when the PUT is
    answered with a status below 400 or with 412, and no database and the
    server error for every other status. *)
Theorem EnsureDB_tolerates_412 (c : ContextAwareClient) (ctx : Context)
    (nm : string) (s : State) (req : Request) (resp : Response) (w' : World) :
  newRequest (client_transport c) ctx "PUT" (path [nm]) None = Returns (Some req, None) ->
  http (client_transport c) (json_content_type "PUT" req) (world s) = (inl resp, w') ->
  exists s',
    if (resp_StatusCode resp <? 400) || (resp_StatusCode resp =? 412) then
      EnsureDB c ctx nm s = (Returns (Some (Client_DB c nm), None), s')
    else
      exists e,
        EnsureDB c ctx nm s = (Returns (None, Some (serverError e)), s') /\
        StatusCode e = resp_StatusCode resp.
Proof.
  intros Hnew Hdo. unfold EnsureDB, CreateDB.
  destruct (Z_lt_ge_dec (resp_StatusCode resp) 400) as [Hlt | Hge].
  - replace (resp_StatusCode resp <? 400) with true by (symmetry; apply Z.ltb_lt; lia).
    simpl. eexists. unfold mbind, M_bind.
    rewrite (closedRequest_success _ _ _ _ _ _ _ _ _ Hnew Hdo Hlt). reflexivity.
  - replace (resp_StatusCode resp <? 400) with false by (symmetry; apply Z.ltb_ge; lia).
    simpl.
    destruct (request_failure_exact _ _ _ _ _ _ req resp w' Hnew Hdo)
      as (e & Hreq & _ & _ & Hst & _); [lia |].
    eexists. unfold closedRequest. unfold mbind, M_bind. rewrite Hreq.
    unfold mret, M_ret, liftM.
    unfold ErrorStatus, assert_Error, StatusPreconditionFailed.
    cbn beta iota. rewrite Hst.
    destruct (resp_StatusCode resp =? 412); simpl; [reflexivity |].
    exists e. auto.
Qed.

End MoreClient.

(** ** Bulk writes *)

Section MoreBulk.
Context `{Runtime}.
Context {D : Type} `{!JSONMarshal (BulkDocsReq D)}
  `{!JSONUnmarshal (list BulkDocsResp)}.

(** X24: BulkDocs reads the body of the response also when the request
    returned an error and no response: after a failure of the client or a
    reply of status 400 or more it panics on the nil response; after a
    reply below 400 it returns what the body decodes to, with no error, or
    the error of reading or decoding it. *)
Theorem BulkDocs_needs_a_response (db : DB) (docs : list D) (json : string)
    (s : State) (req : Request) (r : Response + string) (w' : World) :
  json_Marshal {| Docs := docs |} = inl json ->
  newRequest (DB_transport db) (DB_ctx db) "POST"
    (revpath "" [DB_name db; "_bulk_docs"]) (Some json) = Returns (Some req, None) ->
  http (DB_transport db) (json_content_type "POST" req) (world s) = (r, w') ->
  exists s',
    match r with
    | inl resp =>
      if resp_StatusCode resp <? 400 then
        exists res err,
          readBody resp [] (after s w' [Sent (json_content_type "POST" req)])
          = (Returns (res, err), s') /\
          BulkDocs db docs s
          = (Returns (match err with Some _ => [] | None => res end, err), s')
      else
        BulkDocs db docs s
        = (Panics "invalid memory address or nil pointer dereference", s')
    | inr _ =>
      BulkDocs db docs s
      = (Panics "invalid memory address or nil pointer dereference", s')
    end.
Proof.
  intros Hjson Hnew Hdo. unfold BulkDocs.
  change ([] ++ docs) with docs. rewrite Hjson.
  destruct r as [resp|msg].
  - destruct (Z_lt_ge_dec (resp_StatusCode resp) 400) as [Hlt | Hge].
    + replace (resp_StatusCode resp <? 400) with true
        by (symmetry; apply Z.ltb_lt; lia).
      destruct (readBody_run resp (@nil BulkDocsResp)
                  (after s w' [Sent (json_content_type "POST" req)]))
        as [[res err] Hread].
      eexists. exists res, err. split; [exact Hread |].
      unfold mbind at 1, M_bind at 1.
      rewrite (request_success _ _ _ _ _ _ _ _ _ Hnew Hdo Hlt).
      unfold readBody_at. unfold mbind, M_bind. rewrite Hread.
      destruct err; reflexivity.
    + replace (resp_StatusCode resp <? 400) with false
        by (symmetry; apply Z.ltb_ge; lia).
      destruct (request_failure_exact _ _ _ _ _ _ req resp w' Hnew Hdo)
        as (e & Hreq & _); [lia |].
      eexists. unfold mbind at 1, M_bind at 1. rewrite Hreq. reflexivity.
  - eexists. unfold mbind at 1, M_bind at 1.
    rewrite (request_transport_failure _ _ _ _ _ _ _ _ _ Hnew Hdo).
    reflexivity.
Qed.

End MoreBulk.

(** ** The further properties on examples *)

Section MoreWitnesses.
Import TestRuntime Scenarios.
#[local] Existing Instance runtime.
#[local] Existing Instance idrev_unmarshal.
#[local] Existing Instance names_unmarshal.
#[local] Existing Instance security_marshal.
#[local] Existing Instance bulk_marshal.
#[local] Existing Instance bulk_unmarshal.

Ltac evaluate t H :=
  let r := eval vm_compute in t in
  assert (H : t = r) by (vm_compute; reflexivity).

(** The request built for a call and the client's answer to it. *)
Ltac exchange t method path body Hnew Hdo :=
  evaluate (newRequest t Background method path body) Hnew;
  match type of Hnew with
  | _ = Returns (Some ?req, None) =>
    evaluate (http t (json_content_type method req) (world start)) Hdo
  end.

Lemma clone_same_entries_witness : clone (map_to_list two_options) = two_options.
Proof. apply clone_same_entries. unfold ranges. reflexivity. Defined.


Lemma request_returns_one_unless_nil_context_witness :
  request (client missing_doc) nilContext "GET" "/db/doc" None start
  = (Panics "nil context", start) /\
  exists resp err s',
    request (client missing_doc) Background "GET" "/db/doc" None start
    = (Returns (resp, err), s') /\
    ((exists r, resp = Some r /\ err = None /\ resp_StatusCode r < 400) \/
     (resp = None /\ exists e, err = Some e)).
Proof.
  split.
  - apply (proj1 (request_returns_one_unless_nil_context
                    (client missing_doc) nilContext "GET" "/db/doc" None start));
      reflexivity.
  - apply (proj2 (request_returns_one_unless_nil_context
                    (client missing_doc) Background "GET" "/db/doc" None start)).
    left. discriminate.
Defined.

Lemma closedRequest_bodies_witness :
  exists resp,
    read_bodies (trace (closedRequest (client revising) Background "PUT" "/db/doc"
                          (Some "{}") start).2) = [resp] /\
    closed_bodies (trace (closedRequest (client revising) Background "PUT" "/db/doc"
                            (Some "{}") start).2) = [resp].
Proof.
  exchange (client revising) "PUT" "/db/doc" (Some "{}") Hnew Hdo.
  evaluate (closedRequest (client revising) Background "PUT" "/db/doc" (Some "{}") start)
    Hrun.
  destruct (closedRequest_bodies _ _ _ _ _ _ _ _ _ _ _ Hnew Hdo Hrun) as [Hr Hc].
  eexists. rewrite Hrun. split; [exact Hr | exact Hc].
Defined.

Lemma closedRequest_transport_failure_witness :
  exists req,
    closedRequest (client unreachable) Background "HEAD" "/" None start
    = (Returns (None, Some (foreignError "nothing to see here, move along")),
       after start tt [Sent req]) /\
    (forall code,
       ErrorStatus (Some (foreignError "nothing to see here, move along")) code
       = Returns false).
Proof.
  exchange (client unreachable) "HEAD" "/" (@None string) Hnew Hdo.
  eexists.
  exact (closedRequest_transport_failure _ _ _ _ _ _ _ _ _ Hnew Hdo).
Defined.

Lemma responseRev_unquotes_witness :
  responseRev (Some (respond 201 (etag "1-abc") "{}"
                       {| req_Method := "PUT"; req_URL := "http://testClient:5984/db/doc";
                          req_Header := ∅; req_Body := Some "{}";
                          req_Context := Background |}), None)
  = Returns ("1-abc", None).
Proof.
  apply (responseRev_unquotes _ "1-abc" "034" "034"). vm_compute. reflexivity.
Defined.

Lemma Put_returns_revision_witness :
  exists s',
    Put (db revising) Background "doc" local_design
      "1-619db7ba8551c0de3f3a178775509611" start
    = (Returns ("2-619db7ba8551c0de3f3a178775509611", None), s').
Proof.
  evaluate (json_Marshal local_design) Hjson.
  match type of Hjson with
  | _ = inl ?json =>
    exchange (db_transport (db revising)) "PUT"
      (revpath "1-619db7ba8551c0de3f3a178775509611" [name (db revising); "doc"])
      (Some json) Hnew Hdo
  end.
  eexists.
  refine (proj1 (Put_returns_revision (db revising) Background "doc" local_design
                   "1-619db7ba8551c0de3f3a178775509611" _ start _ _ tt
                   "2-619db7ba8551c0de3f3a178775509611" Hjson Hnew Hdo _ _)).
  - simpl. lia.
  - vm_compute. reflexivity.
Defined.

Lemma Delete_returns_revision_witness :
  exists s',
    Delete (db revising) Background "doc" "1-619db7ba8551c0de3f3a178775509611" start
    = (Returns ("2-619db7ba8551c0de3f3a178775509611", None), s').
Proof.
  exchange (db_transport (db revising)) "DELETE"
    (revpath "1-619db7ba8551c0de3f3a178775509611" [name (db revising); "doc"])
    (@None string) Hnew Hdo.
  eexists.
  refine (proj1 (Delete_returns_revision (db revising) Background "doc"
                   "1-619db7ba8551c0de3f3a178775509611" start _ _ tt
                   "2-619db7ba8551c0de3f3a178775509611" Hnew Hdo _ _)).
  - simpl. lia.
  - vm_compute. reflexivity.
Defined.

Lemma Rev_failed_witness :
  exists e s',
    db_Rev (db missing_doc) Background "404" start
    = (Returns ("", Some (serverError e)), s') /\
    StatusCode e = 404 /\
    ErrorCode e = "" /\ Reason e = "" /\
    NotFound (Some (serverError e)) = Returns true.
Proof.
  exchange (db_transport (db missing_doc)) "HEAD" (path [name (db missing_doc); "404"])
    (@None string) Hnew Hdo.
  destruct (Rev_failed (db missing_doc) Background "404" start _ _ tt Hnew Hdo
              ltac:(simpl; lia) eq_refl) as (e & Hrun & Hst & Hc & Hr & Hnf).
  exists e. eexists. split; [exact Hrun |]. auto.
Defined.

Lemma PutSecurity_sends_witness :
  exists s', PutSecurity (db empty_security) Background Security_zero start
             = (Returns None, s').
Proof.
  exchange (db_transport (db empty_security)) "PUT"
    (path [name (db empty_security); "_security"])
    (Some (jq "{'admins':{},'members':{}}")) Hnew Hdo.
  eexists.
  exact (proj1 (PutSecurity_sends (db empty_security) Background Security_zero start
                  _ _ tt Hnew Hdo ltac:(simpl; lia))).
Defined.

Lemma unencodable_option_sends_nothing_witness :
  (exists err, Get (db unchanged_remote) Background "doc" Design_zero
                 [("limit", VNil)] start
               = (Returns (Design_zero, Some err), start)) /\
  (exists err, db_View (db unchanged_remote) Background "test" "by_created_at"
                 Design_zero [("limit", VNil)] start
               = (Returns (Design_zero, Some err), start)) /\
  (exists err, AllDocs (db unchanged_remote) Background Design_zero
                 [("limit", VNil)] start
               = (Returns (Design_zero, Some err), start)).
Proof.
  apply (unencodable_option_sends_nothing (db unchanged_remote) Background "doc"
           "test" "by_created_at" Design_zero [("limit", VNil)] "limit" VNil start).
  - left. reflexivity.
  - reflexivity.
  - reflexivity.
  - reflexivity.
Defined.

Lemma View_design_prefix_optional_witness :
  db_View (db unchanged_remote) Background "_design/test" "by_created_at"
    Design_zero []
  = db_View (db unchanged_remote) Background "test" "by_created_at" Design_zero [].
Proof.
  apply (View_design_prefix_optional (db unchanged_remote) Background "test"
           "by_created_at" Design_zero []).
  reflexivity.
Defined.

Lemma Put_panics_only_on_nil_context_or_short_etag_witness :
  exists r,
    In r (closed_bodies
            (trace (Put (db short_etag) Background "doc" local_design "" start).2)) /\
    resp_StatusCode r < 400 /\
    String.length (Header_Get (resp_Header r) "Etag") = 1%nat.
Proof.
  evaluate (Put (db short_etag) Background "doc" local_design "" start) Hrun.
  destruct (Put_panics_only_on_nil_context_or_short_etag (db short_etag) Background
              "doc" local_design "" start _ _ Hrun)
    as [(Hnil & _) | (r & Hin & Hlt & Hlen)]; [discriminate |].
  exists r. rewrite Hrun. auto.
Defined.

Lemma SyncDesign_keeps_design_witness :
  exists d',
    (SyncDesign (db changed_remote) Background stale_design start).1
    = Returns (d', None) /\
    ID d' = ID stale_design /\ Views d' = Views stale_design.
Proof.
  evaluate (SyncDesign (db changed_remote) Background stale_design start) Hrun.
  match type of Hrun with
  | _ = (Returns (?d', _), _) => exists d'
  end.
  split; [rewrite Hrun; reflexivity |].
  exact (SyncDesign_keeps_design (db changed_remote) Background stale_design start
           _ _ _ Hrun).
Defined.

Lemma reads_panic_only_on_nil_context_witness :
  (exists doc' err s',
     Get (db unchanged_remote) Background "_design/test" Design_zero [] start
     = (Returns (doc', err), s')) /\
  (exists sec err s',
     db_Security (db unchanged_remote) Background start = (Returns (sec, err), s') /\
     (sec = None <-> err <> None)).
Proof.
  apply (reads_panic_only_on_nil_context (db unchanged_remote) Background
           "_design/test" Design_zero [] start).
  discriminate.
Defined.

Lemma Post_returns_id_rev_witness :
  exists s',
    Post (db posting) Background local_design start
    = (Returns ("doc", "1-abc", None), s').
Proof.
  evaluate (json_Marshal local_design) Hjson.
  match type of Hjson with
  | _ = inl ?json =>
    exchange (db_transport (db posting)) "POST" (revpath "" [name (db posting)])
      (Some json) Hnew Hdo
  end.
  eexists.
  refine (proj1 (Post_returns_id_rev (db posting) Background local_design _ start
                   _ _ tt {| idrev_ID := "doc"; idrev_Rev := "1-abc" |}
                   Hjson Hnew Hdo _ eq_refl _)).
  - simpl. lia.
  - vm_compute. reflexivity.
Defined.

Lemma CreateDB_returns_db_also_with_error_witness :
  exists err s',
    CreateDB (couch existing_db) Background "db" start
    = (Returns (Some (Client_DB (couch existing_db) "db"), err), s') /\
    name (Client_DB (couch existing_db) "db") = "db" /\
    db_transport (Client_DB (couch existing_db) "db")
    = client_transport (couch existing_db).
Proof.
  apply (CreateDB_returns_db_also_with_error (couch existing_db) Background "db" start).
  discriminate.
Defined.

Lemma EnsureDB_tolerates_412_witness :
  exists s',
    EnsureDB (couch existing_db) Background "db" start
    = (Returns (Some (Client_DB (couch existing_db) "db"), None), s').
Proof.
  exchange (client_transport (couch existing_db)) "PUT" (path ["db"]) (@None string)
    Hnew Hdo.
  destruct (EnsureDB_tolerates_412 (couch existing_db) Background "db" start _ _ tt
              Hnew Hdo) as [s' Hs].
  exists s'. exact Hs.
Defined.

Lemma BulkDocs_needs_a_response_witness :
  exists s',
    BulkDocs (bulk_db failing_remote) [VString "Barney"] start
    = (Panics "invalid memory address or nil pointer dereference", s').
Proof.
  exchange (DB_transport (bulk_db failing_remote)) "POST"
    (revpath "" [DB_name (bulk_db failing_remote); "_bulk_docs"])
    (Some (jq "{'docs':[]}")) Hnew Hdo.
  destruct (BulkDocs_needs_a_response (bulk_db failing_remote) [VString "Barney"]
              _ start _ _ tt eq_refl Hnew Hdo) as [s' Hs].
  exists s'. exact Hs.
Defined.

End MoreWitnesses.
